(** * Vehicle.py: engines, vehicles and their movement state

    A shallow embedding of [src/Vehicle.py].  Every Python class is a module
    holding a record of the instance attributes and one definition per
    method, under the method's own name.  Methods that mutate [self] are
    computations in a small state-and-exception monad, so that the state
    left behind by a raised exception can be observed. *)

From Stdlib Require Import ZArith String Ascii List Floats DecimalString Lia Bool.
From stdpp Require Import base option gmap list strings.

Local Open Scope Z_scope.

(** ** The fragment of the Python runtime the program relies on *)

Module Py.

(** The exceptions the program can raise: [ValueError] by its own [raise]
    statements, [OverflowError] by [int + float] on an integer beyond the
    range of a double. *)
Inductive exn : Type :=
| ValueError (msg : string)
| OverflowError (msg : string).

(** What a call yields: a value, or an exception. *)
Inductive outcome (A : Type) : Type :=
| Return (a : A)
| Raise (e : exn).
Arguments Return {A} a.
Arguments Raise {A} e.

Definition outcome_bind {A B} (f : A -> outcome B) (m : outcome A) : outcome B :=
  match m with
  | Return a => f a
  | Raise e => Raise e
  end.

(** A number as a parameter annotated [float] receives it: a Python [int]
    (unbounded) or a Python [float] (IEEE 754 binary64). *)
Inductive number : Type :=
| Int (z : Z)
| Float (f : float).

(** [float(z)]: the nearest double, ties to even; an integer that rounds
    beyond the largest double raises. *)
Definition float_of_int (z : Z) : outcome float :=
  match binary_normalize 53 1024 z 0 false with
  | S754_infinity _ => Raise (OverflowError "int too large to convert to float")
  | sf => Return (SF2Prim sf)
  end.

(** [x + y] on numbers: exact on two ints, otherwise the int operand is
    converted and the doubles are added. *)
Definition add (x y : number) : outcome number :=
  match x, y with
  | Int a, Int b => Return (Int (a + b))
  | Int a, Float g => outcome_bind (fun f => Return (Float (f + g)%float)) (float_of_int a)
  | Float f, Int b => outcome_bind (fun g => Return (Float (f + g)%float)) (float_of_int b)
  | Float f, Float g => Return (Float (f + g)%float)
  end.

(** [x <= 0] against the int literal [0]. *)
Definition le0 (x : number) : bool :=
  match x with
  | Int a => a <=? 0
  | Float f => (f <=? 0)%float
  end.

(** [x == y] on numbers: the values are compared exactly, an int against
    a double included (no rounding of the int). *)
Definition eqb (x y : number) : bool :=
  let int_float (a : Z) (f : float) : bool :=
    match Prim2SF f with
    | S754_zero _ => a =? 0
    | S754_finite s m e =>
        let v := if s then Z.neg m else Z.pos m in
        if 0 <=? e then a =? v * 2 ^ e else a * 2 ^ (- e) =? v
    | _ => false
    end in
  match x, y with
  | Int a, Int b => a =? b
  | Int a, Float g => int_float a g
  | Float f, Int b => int_float b f
  | Float f, Float g => (f =? g)%float
  end.

(** The decimal digits of an int, with a minus sign when negative: what
    [str] gives for an int whenever the interpreter carries the conversion
    out.  It is used directly only where the int is short by construction
    (a validated year, a gear between 1 and 6); every other conversion goes
    through [format_int] below. *)
Definition str_int (z : Z) : string := NilZero.string_of_int (Z.to_int z).

(** How many decimal digits an int has, the sign not counted. *)
Definition int_digits (z : Z) : Z := Z.of_nat (String.length (str_int (Z.abs z))).

(** Three things belong to the interpreter and not to the program, and
    are taken as given: [repr] of a double (the shortest string that reads
    back to it), the order in which a set of strings is iterated (it
    depends on the process's string hashing), and the limit on the digits
    of an int that is converted to a string, [sys.get_int_max_str_digits()]:
    4300 unless configured, 0 for no limit, as in the interpreters that
    have none; a limit that is set is never below 640. *)
Class Interpreter : Type := {
  float_repr : float -> string;
  set_order : gset string -> list string;
  int_max_str_digits : Z
}.

(** [str] of an int, as an f-string field formats it: an int of more than
    640 digits is refused when a limit is set and it has more digits than
    the limit. *)
Definition format_int `{Interpreter} (z : Z) : outcome string :=
  if (640 <? int_digits z) && ((0 <? int_max_str_digits)
                               && (int_max_str_digits <? int_digits z)) then
    Raise (ValueError ("Exceeds the limit (" +:+ str_int int_max_str_digits
                         +:+ " digits) for integer string conversion; "
                         +:+ "use sys.set_int_max_str_digits() to increase the limit"))
  else Return (str_int z).

(** [str] of a number, as an f-string field formats it. *)
Definition format_number `{Interpreter} (x : number) : outcome string :=
  match x with
  | Int a => format_int a
  | Float f => Return (float_repr f)
  end.

(** [repr] of a string made of printable characters other than quotes and
    backslashes, which is all the program ever formats this way. *)
Definition repr_str (s : string) : string := "'" +:+ s +:+ "'".

Fixpoint join (sep : string) (l : list string) : string :=
  match l with
  | [] => ""
  | [s] => s
  | s :: rest => s +:+ sep +:+ join sep rest
  end.

(** [str] of a list of strings: [['a', 'b']]. *)
Definition str_list (l : list string) : string :=
  "[" +:+ join ", " (map repr_str l) +:+ "]".

(** [str] of a set of strings: [{'a', 'b'}], in iteration order. *)
Definition str_set `{Interpreter} (s : gset string) : string :=
  "{" +:+ join ", " (map repr_str (set_order s)) +:+ "}".

(** [x in l] on strings. *)
Definition str_in (x : string) (l : list string) : bool :=
  bool_decide (x ∈ l).

(** [needle in hay]: [needle] occurs in [hay] as a substring. *)
Fixpoint contains (needle hay : string) : bool :=
  String.prefix needle hay ||
  match hay with
  | EmptyString => false
  | String _ rest => contains needle rest
  end.

(** *** Methods: state, exceptions and standard output *)

(** One run of a method on a state [S]: its outcome, the state it leaves
    (also when it raises) and the lines it printed. *)
Record run (S A : Type) : Type := Run {
  result : outcome A;
  final : S;
  stdout : list string
}.
Arguments Run {S A} result final stdout.
Arguments result {S A} r.
Arguments final {S A} r.
Arguments stdout {S A} r.

Definition M (S A : Type) : Type := S -> run S A.

Definition ret {S A} (a : A) : M S A := fun s => Run (Return a) s [].

Definition raise {S A} (e : exn) : M S A := fun s => Run (Raise e) s [].

Definition bind {S A B} (m : M S A) (f : A -> M S B) : M S B :=
  fun s =>
    let r := m s in
    match result r with
    | Return a =>
        let r' := f a (final r) in
        Run (result r') (final r') (stdout r ++ stdout r')
    | Raise e => Run (Raise e) (final r) (stdout r)
    end.

Definition get {S} : M S S := fun s => Run (Return s) s [].

Definition put {S} (s' : S) : M S unit := fun _ => Run (Return tt) s' [].

Definition print {S} (line : string) : M S unit := fun s => Run (Return tt) s [line].

(** An expression that may raise, evaluated inside a method. *)
Definition lift {S A} (o : outcome A) : M S A := fun s => Run o s [].

(** The newline character, as the escape in a string literal gives it. *)
Definition nl : string := String (Ascii.ascii_of_nat 10) EmptyString.

(** [s * n]: [n] copies of [s] in a row. *)
Fixpoint repeat_str (s : string) (n : nat) : string :=
  match n with
  | O => ""
  | S k => s +:+ repeat_str s k
  end.

(** Whether a string counts as true: it is not empty. *)
Definition truthy (s : string) : bool := negb (bool_decide (s = "")).

End Py.

Import Py.

Declare Scope py_scope.
Delimit Scope py_scope with py.
Notation "x <- m ;; k" := (Py.bind m (fun x => k))
  (at level 100, m at next level, right associativity) : py_scope.
Notation "m ;; k" := (Py.bind m (fun _ => k))
  (at level 100, right associativity) : py_scope.
Notation "x <-? o ;; k" := (Py.outcome_bind (fun x => k) o)
  (at level 100, o at next level, right associativity) : py_scope.
Notation "o ;;? k" := (Py.outcome_bind (fun _ => k) o)
  (at level 100, right associativity) : py_scope.

(** ** class Engine *)

Module Engine.

Record t : Type := new { horsepower : Z; engine_type : string }.

Definition valid_types : list string := ["2-stroke"; "4-stroke"; "electric"; "diesel"].

Definition __init__ (horsepower : Z) (engine_type : string) : outcome t :=
  if horsepower <=? 0 then
    Raise (ValueError "Horsepower must be positive.")
  else if negb (str_in engine_type valid_types) then
    Raise (ValueError ("Invalid engine type. Choose from: " +:+ str_list valid_types))
  else
    Return {| horsepower := horsepower; engine_type := engine_type |}.

Definition __str__ `{Interpreter} (self : t) : outcome string :=
  (hp <-? format_int (horsepower self) ;;
   Return (hp +:+ " HP " +:+ engine_type self +:+ " engine"))%py.

End Engine.

(** ** class Vehicle(ABC) *)

Module Vehicle.

Record t : Type := new {
  _brand : string;
  _model : string;
  _year : Z;
  _fuel_type : string;
  __vin : string
}.

Definition _validate_nonempty (value field : string) : outcome unit :=
  if bool_decide (value = "") then
    Raise (ValueError (field +:+ " cannot be empty."))
  else Return tt.

(** [current_year] is what [datetime.now().year] reads at the call. *)
Definition _validate_year (current_year year : Z) : outcome unit :=
  if negb ((1900 <=? year) && (year <=? current_year)) then
    Raise (ValueError "Invalid year.")
  else Return tt.

Definition valid : list string := ["petrol"; "diesel"; "electric"].

Definition _validate_fuel (fuel_type : string) : outcome unit :=
  if negb (str_in fuel_type valid) then
    Raise (ValueError ("Invalid fuel type. Choose from: " +:+ str_list valid))
  else Return tt.

(** [uuid4] is the string [str(uuid.uuid4())] yields when
    [_generate_vin] runs, after the four checks. *)
Definition __init__ (current_year : Z) (uuid4 : string)
    (brand model : string) (year : Z) (fuel_type : string) : outcome t :=
  (_validate_nonempty brand "Brand" ;;?
   _validate_nonempty model "Model" ;;?
   _validate_year current_year year ;;?
   _validate_fuel fuel_type ;;?
   Return {| _brand := brand; _model := model; _year := year;
             _fuel_type := fuel_type; __vin := uuid4 |})%py.

Definition vin (self : t) : string := __vin self.

(** The year of a vehicle passed [_validate_year]: it is at least 1900
    and at most the year of the clock, four digits, and its conversion is
    never refused. *)
Definition __str__ (self : t) : string :=
  str_int (_year self) +:+ " " +:+ _brand self +:+ " " +:+ _model self
    +:+ " (" +:+ _fuel_type self +:+ ")".

End Vehicle.

(** ** class vehicleMixin *)

Module vehicleMixin.

Record t : Type := new { _speed : Z; __odometer : number }.

(** An instance of a concrete vehicle class: the attributes
    [Vehicle.__init__] sets, those [vehicleMixin.__init__] sets, and the
    attributes [own] of the class itself. *)
Record object (A : Type) : Type := Object {
  vehicle : Vehicle.t;
  movement : t;
  own : A
}.
Arguments Object {A} vehicle movement own.
Arguments vehicle {A} o.
Arguments movement {A} o.
Arguments own {A} o.

Definition __init__ : t := {| _speed := 0; __odometer := Int 0 |}.

Section methods.
Context `{Interpreter} {A : Type}.

(** [str(self)]: no concrete class overrides [Vehicle.__str__]. *)
Definition str (self : object A) : string := Vehicle.__str__ (vehicle self).

Definition odometer (self : object A) : number := __odometer (movement self).

Definition speed (self : object A) : Z := _speed (movement self).

Definition set_speed (v : Z) (self : object A) : object A :=
  Object (vehicle self) {| _speed := v; __odometer := odometer self |} (own self).

Definition set_odometer (d : number) (self : object A) : object A :=
  Object (vehicle self) {| _speed := speed self; __odometer := d |} (own self).

Definition set_own (a : A) (self : object A) : object A :=
  Object (vehicle self) (movement self) a.

Definition accelerate (speed' : Z) : M (object A) unit :=
  if speed' <=? 0 then
    raise (ValueError "Speed can't be negative")
  else
    (self <- get ;;
     put (set_speed (speed self + speed') self))%py.

Definition brake : M (object A) string :=
  (self <- get ;;
   put (set_speed 0 self) ;;
   self <- get ;;
   ret (str self +:+ " stopped."))%py.

Definition drive (distance : number) : M (object A) string :=
  if le0 distance then
    raise (ValueError "Distance must be greater than zero.")
  else
    (self <- get ;;
     total <- lift (add (odometer self) distance) ;;
     put (set_odometer total self) ;;
     self <- get ;;
     shown <- lift (format_number distance) ;;
     total_shown <- lift (format_number (odometer self)) ;;
     ret (str self +:+ " drove " +:+ shown +:+ " km. Total: "
            +:+ total_shown +:+ " km"))%py.

End methods.

End vehicleMixin.

Import vehicleMixin.

(** ** class Motorcycle(Vehicle, vehicleMixin) *)

Module Motorcycle.

Record attrs : Type := new {
  _engine : Engine.t;
  _has_sidecar : bool;
  _helmet_required : bool
}.

Definition t : Type := object attrs.

(** [has_sidecar] defaults to [False] in the source; a caller that omits
    it passes [false] here. *)
Definition __init__ (current_year : Z) (uuid4 : string)
    (brand model : string) (year : Z) (fuel_type : string)
    (engine : Engine.t) (has_sidecar : bool) : outcome t :=
  (base <-? Vehicle.__init__ current_year uuid4 brand model year fuel_type ;;
   Return (Object base vehicleMixin.__init__
             {| _engine := engine; _has_sidecar := has_sidecar;
                _helmet_required := true |}))%py.

Definition set_has_sidecar (b : bool) (a : attrs) : attrs :=
  {| _engine := _engine a; _has_sidecar := b;
     _helmet_required := _helmet_required a |}.

Section methods.
Context `{Interpreter}.

Definition start_engine (self : t) : outcome string :=
  (engine <-? Engine.__str__ (_engine (own self)) ;;
   Return (str self +:+ " engine started. Engine: " +:+ engine))%py.

Definition vehicle_type (self : t) : string := "Motorcycle".

Definition ride (km : number) : M t string :=
  if le0 km then
    raise (ValueError "Distance must be greater than zero.")
  else
    (accelerate 60 ;;
     drive km ;;
     self <- get ;;
     shown <- lift (format_number km) ;;
     total_shown <- lift (format_number (odometer self)) ;;
     ret (str self +:+ " rode " +:+ shown +:+ " km. Total: "
            +:+ total_shown +:+ " km"))%py.

Definition check_helmet (self : t) : string :=
  "Helmet required: " +:+ (if _helmet_required (own self) then "Yes" else "No").

Definition attach_sidecar : M t string :=
  (self <- get ;;
   if _has_sidecar (own self) then
     ret "Sidecar already attached."
   else
     (put (set_own (set_has_sidecar true (own self)) self) ;;
      ret "Sidecar successfully attached."))%py.

End methods.

Definition display_info `{Interpreter} (self : t) : outcome string :=
  let sidecar := if _has_sidecar (own self) then "Yes" else "No" in
  (engine <-? Engine.__str__ (_engine (own self)) ;;
   odometer_shown <-? format_number (odometer self) ;;
   speed_shown <-? format_int (speed self) ;;
   Return ("Vehicle: " +:+ str self +:+ nl
           +:+ "Type: " +:+ vehicle_type self +:+ nl
           +:+ "Fuel: " +:+ Vehicle._fuel_type (vehicle self) +:+ nl
           +:+ "Engine: " +:+ engine +:+ nl
           +:+ "Sidecar: " +:+ sidecar +:+ nl
           +:+ "Odometer: " +:+ odometer_shown +:+ " km" +:+ nl
           +:+ "Speed: " +:+ speed_shown +:+ " km/h" +:+ nl
           +:+ "VIN: " +:+ Vehicle.vin (vehicle self) +:+ nl))%py.

End Motorcycle.

(** ** class Bus(Vehicle, vehicleMixin) *)

Module Bus.

Record attrs : Type := new {
  _color : string;
  __capacity : Z;
  _engine : Engine.t;
  _passengers : list string
}.

Definition t : Type := object attrs.

Definition __init__ (current_year : Z) (uuid4 : string)
    (brand model : string) (year : Z) (fuel_type : string)
    (color : string) (capacity : Z) (engine : Engine.t) : outcome t :=
  (base <-? Vehicle.__init__ current_year uuid4 brand model year fuel_type ;;
   Return (Object base vehicleMixin.__init__
             {| _color := color; __capacity := capacity; _engine := engine;
                _passengers := [] |}))%py.

Definition set_color (c : string) (a : attrs) : attrs :=
  {| _color := c; __capacity := __capacity a; _engine := _engine a;
     _passengers := _passengers a |}.

Definition set_engine (e : Engine.t) (a : attrs) : attrs :=
  {| _color := _color a; __capacity := __capacity a; _engine := e;
     _passengers := _passengers a |}.

Definition set_passengers (l : list string) (a : attrs) : attrs :=
  {| _color := _color a; __capacity := __capacity a; _engine := _engine a;
     _passengers := l |}.

(** [list.remove(x)]: drops the first element equal to [x]. *)
Fixpoint list_remove (x : string) (l : list string) : list string :=
  match l with
  | [] => []
  | y :: rest => if bool_decide (y = x) then rest else y :: list_remove x rest
  end.

Section methods.
Context `{Interpreter}.

Definition vehicle_type (self : t) : string := "Bus".

Definition start_engine (self : t) : outcome string :=
  (engine <-? Engine.__str__ (_engine (own self)) ;;
   Return (str self +:+ " engine started. Engine: " +:+ engine))%py.

Definition stop_engine (self : t) : outcome string :=
  (speed_shown <-? format_int (speed self) ;;
   Return (str self +:+ " engine stopped at " +:+ speed_shown +:+ " km/h."))%py.

Definition change_color (new_color : string) : M t string :=
  (self <- get ;;
   if negb (bool_decide (new_color = _color (own self))) then
     (put (set_own (set_color new_color (own self)) self) ;;
      ret ("Color changed to " +:+ new_color +:+ "."))
   else
     ret "Color is already the same.")%py.

(** The engine is held by value: the properties below never involve two
    vehicles that share one [Engine] object. *)
Definition increase_horse_power (hp : Z) : M t string :=
  if 0 <? hp then
    (self <- get ;;
     let e := _engine (own self) in
     put (set_own (set_engine {| Engine.horsepower := Engine.horsepower e + hp;
                                 Engine.engine_type := Engine.engine_type e |}
                     (own self)) self) ;;
     self <- get ;;
     shown <- lift (format_int (Engine.horsepower (_engine (own self)))) ;;
     ret ("Horsepower increased to " +:+ shown +:+ "."))%py
  else
    ret "Invalid horsepower increment.".

Definition add_passenger (name : string) : M t string :=
  (self <- get ;;
   if Z.of_nat (length (_passengers (own self))) <? __capacity (own self) then
     (put (set_own (set_passengers (_passengers (own self) ++ [name]) (own self)) self) ;;
      ret (name +:+ " ავიდა ავტობუსში"))
   else
     ret "ავტობუსი სავსეა!")%py.

Definition remove_passenger (name : string) : M t string :=
  (self <- get ;;
   if str_in name (_passengers (own self)) then
     (put (set_own (set_passengers (list_remove name (_passengers (own self)))
                      (own self)) self) ;;
      ret (name +:+ " ჩამოვიდა ავტობუსიდან"))
   else
     ret (name +:+ " არ არის ამ ავტობუსში"))%py.

End methods.

Definition display_info `{Interpreter} (self : t) : outcome string :=
  let passengers_list :=
    match _passengers (own self) with
    | [] => "No passengers"
    | _ :: _ => join ", " (_passengers (own self))
    end in
  (engine <-? Engine.__str__ (_engine (own self)) ;;
   capacity <-? format_int (__capacity (own self)) ;;
   aboard <-? format_int (Z.of_nat (length (_passengers (own self)))) ;;
   capacity_again <-? format_int (__capacity (own self)) ;;
   odometer_shown <-? format_number (odometer self) ;;
   speed_shown <-? format_int (speed self) ;;
   Return ("Vehicle: " +:+ str self +:+ nl
           +:+ "Type: " +:+ vehicle_type self +:+ nl
           +:+ "Color: " +:+ _color (own self) +:+ nl
           +:+ "Engine: " +:+ engine +:+ nl
           +:+ "Capacity: " +:+ capacity +:+ nl
           +:+ "Passengers: " +:+ aboard +:+ " / " +:+ capacity_again +:+ nl
           +:+ "Passenger List: " +:+ passengers_list +:+ nl
           +:+ "Odometer: " +:+ odometer_shown +:+ " km" +:+ nl
           +:+ "Speed: " +:+ speed_shown +:+ " km/h" +:+ nl
           +:+ "VIN: " +:+ Vehicle.vin (vehicle self) +:+ nl))%py.

End Bus.

(** ** Class attributes *)

Module Classes.

(** The classes whose instances run [Car.__init__]: what
    [self.__class__] can be there. *)
Inductive name : Type := Car | SportsCar.

(** The bindings of [model_produced] in the class namespaces.  The body
    of [Car] binds it; the body of [SportsCar] does not, so [SportsCar]
    has a binding of its own only once one is assigned to it. *)
Record attributes : Type := new {
  Car_model_produced : Z;
  SportsCar_model_produced : option Z
}.

(** The namespaces once the module is loaded: [model_produced = 0] in
    [Car], nothing in [SportsCar]. *)
Definition loaded : attributes :=
  {| Car_model_produced := 0; SportsCar_model_produced := None |}.

(** [cls.model_produced]: the class's own binding, else the one of the
    next class in its method resolution order. *)
Definition getattr (cls : name) (ns : attributes) : Z :=
  match cls with
  | Car => Car_model_produced ns
  | SportsCar =>
      match SportsCar_model_produced ns with
      | Some v => v
      | None => Car_model_produced ns
      end
  end.

(** [cls.model_produced = v]: binds in the namespace of [cls] itself. *)
Definition setattr (cls : name) (v : Z) (ns : attributes) : attributes :=
  match cls with
  | Car =>
      {| Car_model_produced := v;
         SportsCar_model_produced := SportsCar_model_produced ns |}
  | SportsCar =>
      {| Car_model_produced := Car_model_produced ns;
         SportsCar_model_produced := Some v |}
  end.

End Classes.

(** ** class Car(Vehicle, vehicleMixin) *)

Module Car.

Record attrs : Type := new {
  _engine : Engine.t;
  _color : string;
  _num_doors : Z;
  __license_plate : string
}.

Definition t : Type := object attrs.

(** The arguments of one constructor call, with what the call reads from
    its environment: the current year and the identifier drawn. *)
Record args : Type := Args {
  current_year : Z;
  uuid4 : string;
  brand : string;
  model : string;
  year : Z;
  fuel_type : string;
  engine : Engine.t;
  color : string;
  num_doors : Z;
  license_plate : string
}.

(** [self_class] is [self.__class__]: [Car] for [Car(...)], [SportsCar]
    when the call comes from [SportsCar.__init__].  The state is the
    class namespaces, which the last statement updates. *)
Definition __init__ (self_class : Classes.name) (a : args) : M Classes.attributes t :=
  (base <- lift (Vehicle.__init__ (current_year a) (uuid4 a) (brand a) (model a)
                   (year a) (fuel_type a)) ;;
   let self := Object base vehicleMixin.__init__
                 {| _engine := engine a; _color := color a;
                    _num_doors := num_doors a;
                    __license_plate := license_plate a |} in
   ns <- get ;;
   put (Classes.setattr self_class (Classes.getattr self_class ns + 1) ns) ;;
   ret self)%py.

Definition get_license_plate (self : t) : string := __license_plate (own self).

Definition set_license_plate (new : string) : M t unit :=
  (self <- get ;;
   put (set_own {| _engine := _engine (own self); _color := _color (own self);
                   _num_doors := _num_doors (own self);
                   __license_plate := new |} self))%py.

Definition vehicle_type (self : t) : string := "Car".

Definition start_engine `{Interpreter} (self : t) : outcome string :=
  (engine <-? Engine.__str__ (_engine (own self)) ;;
   Return (str self +:+ " engine started. Engine: " +:+ engine))%py.

Definition set_plate (new : string) (a : attrs) : attrs :=
  {| _engine := _engine a; _color := _color a; _num_doors := _num_doors a;
     __license_plate := new |}.

(** The body of [display_info], for an instance of [Car] or of a subclass:
    [kind] is what [self.vehicle_type()] returns for the class of [self],
    [car_of] gives the attributes [Car.__init__] set on it. *)
Definition display_info_of `{Interpreter} {A : Type}
    (kind : string) (car_of : A -> attrs) (self : object A) : outcome string :=
  (engine <-? Engine.__str__ (_engine (car_of (own self))) ;;
   doors <-? format_int (_num_doors (car_of (own self))) ;;
   odometer_shown <-? format_number (odometer self) ;;
   speed_shown <-? format_int (speed self) ;;
   Return ("Vehicle: " +:+ str self +:+ nl
           +:+ "Type: " +:+ kind +:+ nl
           +:+ "Fuel: " +:+ Vehicle._fuel_type (vehicle self) +:+ nl
           +:+ "Engine: " +:+ engine +:+ nl
           +:+ "Color: " +:+ _color (car_of (own self)) +:+ nl
           +:+ "Doors: " +:+ doors +:+ nl
           +:+ "License Plate: " +:+ __license_plate (car_of (own self)) +:+ nl
           +:+ "Odometer: " +:+ odometer_shown +:+ " km" +:+ nl
           +:+ "Speed: " +:+ speed_shown +:+ " km/h" +:+ nl
           +:+ "VIN: " +:+ Vehicle.vin (vehicle self) +:+ nl))%py.

Definition display_info `{Interpreter} (self : t) : outcome string :=
  display_info_of (vehicle_type self) (fun a => a) self.

End Car.

(** ** class SportsCar(Car) *)

Module SportsCar.

Record attrs : Type := new {
  car : Car.attrs;
  __turbo_enabled : bool;
  _gear : Z;
  _spoiler : option string
}.

Definition t : Type := object attrs.

Definition spoiler_types : gset string := {[ "lip"; "wing"; "active" ]}.

Definition __init__ (a : Car.args) : M Classes.attributes t :=
  (base <- Car.__init__ Classes.SportsCar a ;;
   ret (Object (vehicle base) (movement base)
          {| car := own base; __turbo_enabled := false; _gear := 1;
             _spoiler := None |}))%py.

Definition set_turbo (b : bool) (a : attrs) : attrs :=
  {| car := car a; __turbo_enabled := b; _gear := _gear a; _spoiler := _spoiler a |}.

Definition set_gear (g : Z) (a : attrs) : attrs :=
  {| car := car a; __turbo_enabled := __turbo_enabled a; _gear := g;
     _spoiler := _spoiler a |}.

Definition set_spoiler_attr (s : option string) (a : attrs) : attrs :=
  {| car := car a; __turbo_enabled := __turbo_enabled a; _gear := _gear a;
     _spoiler := s |}.

Section methods.
Context `{Interpreter}.

Definition vehicle_type (self : t) : string := "Sports Car".

Definition enable_turbo : M t unit :=
  (self <- get ;;
   put (set_own (set_turbo true (own self)) self) ;;
   print "Turbo mode is activated.")%py.

Definition disable_turbo : M t unit :=
  (self <- get ;;
   put (set_own (set_turbo false (own self)) self) ;;
   print "Turbo mode deactivated.")%py.

(** The gear printed is the one just checked to be between 1 and 6. *)
Definition shift_gear (gear : Z) : M t unit :=
  if (gear <? 1) || (6 <? gear) then
    raise (ValueError "Gear must be between 1 and 6.")
  else
    (self <- get ;;
     put (set_own (set_gear gear (own self)) self) ;;
     self <- get ;;
     print ("Gear shifted to " +:+ str_int (_gear (own self))))%py.

Definition spoiler (self : t) : option string := _spoiler (own self).

Definition set_spoiler (spoiler' : string) : M t unit :=
  if negb (bool_decide (spoiler' ∈ spoiler_types)) then
    raise (ValueError ("Invalid spoiler. Choose from: " +:+ str_set spoiler_types))
  else
    (self <- get ;;
     put (set_own (set_spoiler_attr (Some spoiler') (own self)) self) ;;
     print ("Spoiler set to: " +:+ spoiler'))%py.

End methods.

(** [start_engine] and the [license_plate] setter are inherited from
    [Car]: they run on the attributes [Car.__init__] set. *)
Definition start_engine `{Interpreter} (self : t) : outcome string :=
  (engine <-? Engine.__str__ (Car._engine (car (own self))) ;;
   Return (str self +:+ " engine started. Engine: " +:+ engine))%py.

Definition set_car (c : Car.attrs) (a : attrs) : attrs :=
  {| car := c; __turbo_enabled := __turbo_enabled a; _gear := _gear a;
     _spoiler := _spoiler a |}.

Definition set_license_plate (new : string) : M t unit :=
  (self <- get ;;
   put (set_own (set_car (Car.set_plate new (car (own self))) (own self)) self))%py.

(** [super().display_info()] runs the body of [Car.display_info] on the
    sports car, whose [vehicle_type()] is the overriding one. *)
Definition display_info `{Interpreter} (self : t) : outcome string :=
  (base <-? Car.display_info_of (vehicle_type self) car self ;;
   gear <-? format_int (_gear (own self)) ;;
   Return (base
           +:+ "Turbo: "
           +:+ (if __turbo_enabled (own self) then "Enabled" else "Disabled") +:+ nl
           +:+ "Gear: " +:+ gear +:+ nl
           +:+ "Spoiler: "
           +:+ (match _spoiler (own self) with
                | Some kind => if truthy kind then kind else "None"
                | None => "None"
                end) +:+ nl))%py.

End SportsCar.

(** ** Callers *)

(** A caller that constructs cars one after the other, as [main] does. *)
Module Production.

Inductive construction : Type :=
| NewCar (a : Car.args)
| NewSportsCar (a : Car.args).

(** The constructor call itself; the instance is dropped, the class
    namespaces are the state. *)
Definition construct (c : construction) : M Classes.attributes unit :=
  match c with
  | NewCar a => (Car.__init__ Classes.Car a ;; ret tt)%py
  | NewSportsCar a => (SportsCar.__init__ a ;; ret tt)%py
  end.

(** Whether the call yields an instance. *)
Definition constructed (c : construction) (ns : Classes.attributes) : bool :=
  match result (construct c ns) with
  | Return _ => true
  | Raise _ => false
  end.

(** The class namespaces after the calls [cs], made in order. *)
Fixpoint produce (cs : list construction) (ns : Classes.attributes) : Classes.attributes :=
  match cs with
  | [] => ns
  | c :: rest => produce rest (final (construct c ns))
  end.

(** How many of the calls [cs] yield a [Car] that is not a [SportsCar],
    and how many a [SportsCar]. *)
Fixpoint cars (cs : list construction) (ns : Classes.attributes) : Z :=
  match cs with
  | [] => 0
  | c :: rest =>
      (match c with
       | NewCar _ => if constructed c ns then 1 else 0
       | NewSportsCar _ => 0
       end) + cars rest (final (construct c ns))
  end.

Fixpoint sports_cars (cs : list construction) (ns : Classes.attributes) : Z :=
  match cs with
  | [] => 0
  | c :: rest =>
      (match c with
       | NewCar _ => 0
       | NewSportsCar _ => if constructed c ns then 1 else 0
       end) + sports_cars rest (final (construct c ns))
  end.

End Production.

(** A caller that drives one bus through a sequence of calls. *)
Module Trip.

Inductive call : Type :=
| Accelerate (speed : Z)
| Brake
| Drive (distance : number)
| ChangeColor (new_color : string)
| IncreaseHorsePower (hp : Z)
| AddPassenger (name : string)
| RemovePassenger (name : string).

Section calls.
Context `{Interpreter}.

(** The call, its value turned into what [print] would show. *)
Definition perform (c : call) : M Bus.t string :=
  match c with
  | Accelerate v => (accelerate v ;; ret "None")%py
  | Brake => brake
  | Drive d => drive d
  | ChangeColor col => Bus.change_color col
  | IncreaseHorsePower hp => Bus.increase_horse_power hp
  | AddPassenger n => Bus.add_passenger n
  | RemovePassenger n => Bus.remove_passenger n
  end.

(** The bus after the calls [cs], made in order; a call that raises
    leaves the bus as [perform] leaves it and the caller goes on. *)
Fixpoint after (cs : list call) (self : Bus.t) : Bus.t :=
  match cs with
  | [] => self
  | c :: rest => after rest (final (perform c self))
  end.

(** How the calls [add_passenger(n)] for [n] in [names] end, in order,
    and the bus they leave. *)
Fixpoint board (names : list string) (self : Bus.t) : list (outcome string) * Bus.t :=
  match names with
  | [] => ([], self)
  | n :: rest =>
      let r := Bus.add_passenger n self in
      let '(answers, self') := board rest (final r) in
      (result r :: answers, self')
  end.

End calls.

End Trip.

(** The scenario of [main]: a motorcycle, two cars and a sports car. *)
Module Scenario.

Definition moto1 (current_year : Z) (uuid4 : string) : outcome Motorcycle.t :=
  (engine1 <-? Engine.__init__ 120 "4-stroke" ;;
   Motorcycle.__init__ current_year uuid4 "Yamaha" "MT-09" 2023 "petrol" engine1 false)%py.

Definition car1 (current_year : Z) (uuid4 : string) : Car.args :=
  Car.Args current_year uuid4 "BMW" "M3" 2022 "petrol"
    (Engine.new 150 "4-stroke") "Red" 4 "ABC-123".

Definition car2 (current_year : Z) (uuid4 : string) : Car.args :=
  Car.Args current_year uuid4 "Tesla" "Model S" 2024 "electric"
    (Engine.new 170 "electric") "White" 4 "EV-001".

Definition sport1 (current_year : Z) (uuid4 : string) : Car.args :=
  Car.Args current_year uuid4 "Ferrari" "488 GTB" 2020 "petrol"
    (Engine.new 320 "4-stroke") "Red" 2 "SPD-488".

(** What [SportsCar("Ferrari", ...)] and [Motorcycle("Yamaha", ...)]
    return in the scenario. *)
Definition ferrari (uuid4 : string) : SportsCar.t :=
  Object (Vehicle.new "Ferrari" "488 GTB" 2020 "petrol" uuid4) vehicleMixin.__init__
    (SportsCar.new (Car.new (Engine.new 320 "4-stroke") "Red" 2 "SPD-488") false 1 None).

Definition yamaha (uuid4 : string) : Motorcycle.t :=
  Object (Vehicle.new "Yamaha" "MT-09" 2023 "petrol" uuid4) vehicleMixin.__init__
    (Motorcycle.new (Engine.new 120 "4-stroke") false true).

(** The first bus of the scenario as [Bus(...)] returns it, with the
    capacity [capacity] and then the roster [passengers]. *)
Definition lion (uuid4 : string) (capacity : Z) (passengers : list string) : Bus.t :=
  Object (Vehicle.new "MAN" "Lion's City" 2017 "diesel" uuid4) vehicleMixin.__init__
    (Bus.new "Blue" capacity (Engine.new 280 "4-stroke") passengers).

End Scenario.

(** A caller that moves one vehicle of any class. *)
Module Journey.

Inductive call : Type :=
| Accelerate (speed : Z)
| Brake
| Drive (distance : number).

Section calls.
Context `{Interpreter} {A : Type}.

Definition perform (c : call) : M (object A) unit :=
  match c with
  | Accelerate v => accelerate v
  | Brake => (brake ;; ret tt)%py
  | Drive d => (drive d ;; ret tt)%py
  end.

(** The vehicle after the calls [cs], made in order; the caller goes on
    after a call that raises. *)
Fixpoint after (cs : list call) (self : object A) : object A :=
  match cs with
  | [] => self
  | c :: rest => after rest (final (perform c self))
  end.

(** The vehicle after [drive(d)] for each [d] of [ds], in order. *)
Definition drives (ds : list Z) (self : object A) : object A :=
  after (map (fun d => Drive (Int d)) ds) self.

End calls.

End Journey.

(** A caller that rides one motorcycle several times. *)
Module Tour.

Section calls.
Context `{Interpreter}.

(** The motorcycle after [ride(km)] for each [km] of [kms], in order. *)
Fixpoint rides (kms : list Z) (self : Motorcycle.t) : Motorcycle.t :=
  match kms with
  | [] => self
  | km :: rest => rides rest (final (Motorcycle.ride (Int km) self))
  end.

End calls.

End Tour.

(** A caller that uses one sports car. *)
Module Session.

Inductive call : Type :=
| Move (c : Journey.call)
| EnableTurbo
| DisableTurbo
| ShiftGear (gear : Z)
| SetSpoiler (spoiler : string)
| SetLicensePlate (new : string).

Section calls.
Context `{Interpreter}.

Definition perform (c : call) : M SportsCar.t unit :=
  match c with
  | Move m => Journey.perform m
  | EnableTurbo => SportsCar.enable_turbo
  | DisableTurbo => SportsCar.disable_turbo
  | ShiftGear g => SportsCar.shift_gear g
  | SetSpoiler s => SportsCar.set_spoiler s
  | SetLicensePlate p => SportsCar.set_license_plate p
  end.

Fixpoint after (cs : list call) (self : SportsCar.t) : SportsCar.t :=
  match cs with
  | [] => self
  | c :: rest => after rest (final (perform c self))
  end.

End calls.

End Session.

(** ** def main() *)

Module Main.

(** What a run reads from outside: the vehicle constructed as number [k]
    of the run (from 0) reads [now_year k] as the current year and draws
    the identifier [uuid4 k]. *)
Record environment : Type := Environment {
  now_year : nat -> Z;
  uuid4 : nat -> string
}.

Section run.
Context `{Interpreter} (env : environment).

(** [self.method(...)] on a local object, inside the program: what the
    method prints is printed and what it raises is raised; its value comes
    back with the object as the call left it. *)
Definition call {T A : Type} (self : T) (m : M T A) : M Classes.attributes (A * T) :=
  fun ns =>
    let r := m self in
    Run (match result r with
         | Return a => Return (a, final r)
         | Raise e => Raise e
         end) ns (stdout r).

(** [self.method(...)] as a statement. *)
Definition exec {T A : Type} (self : T) (m : M T A) : M Classes.attributes T :=
  (r <- call self m ;; ret (snd r))%py.

(** [print(self.method(...))] for a method that returns a string. *)
Definition say {T : Type} (self : T) (m : M T string) : M Classes.attributes T :=
  (r <- call self m ;; print (fst r) ;; ret (snd r))%py.

Fixpoint for_each {T : Type} (body : T -> M Classes.attributes unit) (l : list T)
  : M Classes.attributes unit :=
  match l with
  | [] => ret tt
  | x :: rest => (body x ;; for_each body rest)%py
  end.

Definition rule : string := repeat_str "=" 40.

(** [print(text)] for a text whose f-string may raise. *)
Definition show (text : outcome string) : M Classes.attributes unit :=
  (line <- lift text ;; print line)%py.

Definition current_speed {A : Type} (self : object A) : outcome string :=
  (speed_shown <-? format_int (speed self) ;;
   Return ("Current speed: " +:+ speed_shown +:+ " km/h"))%py.

Definition motorcycle_tests (m : Motorcycle.t) : M Classes.attributes unit :=
  (show (Motorcycle.display_info m) ;;
   show (Motorcycle.start_engine m) ;;
   m <- (if bool_decide (Vehicle._brand (vehicle m) = "Yamaha") then
           say m (Motorcycle.ride (Int 100))
         else if bool_decide (Vehicle._brand (vehicle m) = "Royal Enfield") then
           say m (Motorcycle.ride (Int 50))
         else if bool_decide (Vehicle._brand (vehicle m) = "Zero") then
           say m (Motorcycle.ride (Int 25))
         else ret m) ;;
   m <- (if negb (bool_decide (Vehicle._brand (vehicle m) = "Zero")) then
           say m Motorcycle.attach_sidecar
         else ret m) ;;
   print (Motorcycle.check_helmet m) ;;
   show (current_speed m) ;;
   show (Motorcycle.display_info m) ;;
   print rule)%py.

Definition bus_tests (b : Bus.t) : M Classes.attributes unit :=
  (show (Bus.display_info b) ;;
   show (Bus.start_engine b) ;;
   b <- say b (Bus.change_color "Yellow") ;;
   b <- say b (Bus.increase_horse_power 50) ;;
   b <- say b (Bus.add_passenger "Luka") ;;
   b <- say b (Bus.add_passenger "Giorgi") ;;
   b <- say b (Bus.remove_passenger "Luka") ;;
   b <- exec b (accelerate 40) ;;
   print "None" ;;
   b <- say b (drive (Int 60)) ;;
   show (current_speed b) ;;
   show (Bus.display_info b) ;;
   show (Bus.stop_engine b) ;;
   print rule)%py.

Definition car_tests (c : Car.t) : M Classes.attributes unit :=
  (show (Car.display_info c) ;;
   show (Car.start_engine c) ;;
   c <- exec c (accelerate 80) ;;
   print "None" ;;
   c <- say c (drive (Int 100)) ;;
   show (current_speed c) ;;
   c <- say c brake ;;
   show (Car.display_info c) ;;
   print rule)%py.

Definition sports_car_tests (s : SportsCar.t) : M Classes.attributes unit :=
  (show (SportsCar.display_info s) ;;
   show (SportsCar.start_engine s) ;;
   s <- exec s (accelerate 120) ;;
   s <- exec s (drive (Int 150)) ;;
   show (current_speed s) ;;
   s <- exec s SportsCar.enable_turbo ;;
   s <- exec s (SportsCar.shift_gear 3) ;;
   s <- exec s (SportsCar.set_spoiler "wing") ;;
   show (SportsCar.display_info s) ;;
   s <- exec s brake ;;
   print rule)%py.

(** The [try] block. *)
Definition body : M Classes.attributes unit :=
  (engine1 <- lift (Engine.__init__ 120 "4-stroke") ;;
   moto1 <- lift (Motorcycle.__init__ (now_year env 0) (uuid4 env 0)
                    "Yamaha" "MT-09" 2023 "petrol" engine1 false) ;;
   engine2 <- lift (Engine.__init__ 100 "4-stroke") ;;
   moto2 <- lift (Motorcycle.__init__ (now_year env 1) (uuid4 env 1)
                    "Royal Enfield" "Classic 500" 2021 "diesel" engine2 false) ;;
   engine3 <- lift (Engine.__init__ 85 "electric") ;;
   moto3 <- lift (Motorcycle.__init__ (now_year env 2) (uuid4 env 2)
                    "Zero" "SR/F" 2024 "electric" engine3 false) ;;
   for_each motorcycle_tests [moto1; moto2; moto3] ;;
   bus_engine1 <- lift (Engine.__init__ 280 "4-stroke") ;;
   bus_engine2 <- lift (Engine.__init__ 440 "electric") ;;
   bus_engine3 <- lift (Engine.__init__ 102 "4-stroke") ;;
   bus1 <- lift (Bus.__init__ (now_year env 3) (uuid4 env 3)
                   "MAN" "Lion's City" 2017 "diesel" "Blue" 50 bus_engine1) ;;
   bus2 <- lift (Bus.__init__ (now_year env 4) (uuid4 env 4)
                   "MAN" "Lion's Coach" 2020 "electric" "White" 45 bus_engine2) ;;
   bus3 <- lift (Bus.__init__ (now_year env 5) (uuid4 env 5)
                   "MAN" "TGE Minibus" 2025 "diesel" "Black" 20 bus_engine3) ;;
   for_each bus_tests [bus1; bus2; bus3] ;;
   car_engine1 <- lift (Engine.__init__ 150 "4-stroke") ;;
   car1 <- Car.__init__ Classes.Car
             (Car.Args (now_year env 6) (uuid4 env 6) "BMW" "M3" 2022 "petrol"
                car_engine1 "Red" 4 "ABC-123") ;;
   car_engine2 <- lift (Engine.__init__ 170 "electric") ;;
   car2 <- Car.__init__ Classes.Car
             (Car.Args (now_year env 7) (uuid4 env 7) "Tesla" "Model S" 2024 "electric"
                car_engine2 "White" 4 "EV-001") ;;
   for_each car_tests [car1; car2] ;;
   sport_engine1 <- lift (Engine.__init__ 320 "4-stroke") ;;
   sport1 <- SportsCar.__init__
               (Car.Args (now_year env 8) (uuid4 env 8) "Ferrari" "488 GTB" 2020 "petrol"
                  sport_engine1 "Red" 2 "SPD-488") ;;
   sport_engine2 <- lift (Engine.__init__ 390 "4-stroke") ;;
   sport2 <- SportsCar.__init__
               (Car.Args (now_year env 9) (uuid4 env 9) "Lamborghini" "Huracan" 2021
                  "petrol" sport_engine2 "Green" 2 "LMB-666") ;;
   for_each sports_car_tests [sport1; sport2] ;;
   sport_engine <- lift (Engine.__init__ 320 "4-stroke") ;;
   sport <- SportsCar.__init__
              (Car.Args (now_year env 10) (uuid4 env 10) "Ferrari" "488 GTB" 2020 "petrol"
                 sport_engine "Red" 2 "SPD-488") ;;
   show (SportsCar.display_info sport) ;;
   show (SportsCar.start_engine sport) ;;
   sport <- exec sport (accelerate 120) ;;
   sport <- say sport (drive (Int 150)) ;;
   sport <- exec sport SportsCar.enable_turbo ;;
   sport <- exec sport (SportsCar.shift_gear 4) ;;
   sport <- exec sport (SportsCar.set_spoiler "wing") ;;
   show (SportsCar.display_info sport) ;;
   sport <- say sport brake ;;
   print rule ;;
   ns <- get ;;
   total <- lift (format_int (Classes.getattr Classes.Car ns)) ;;
   print ("Total models produced: " +:+ total))%py.

(** [main()]: the [try] block with its two handlers.  Each element of
    [stdout] is the text of one [print] call. *)
Definition main : M Classes.attributes unit :=
  fun ns =>
    let r := body ns in
    match result r with
    | Return _ => r
    | Raise (ValueError msg) =>
        Run (Return tt) (final r) (stdout r ++ ["❌ Value error: " +:+ msg])
    | Raise (OverflowError msg) =>
        Run (Return tt) (final r) (stdout r ++ ["❌ Runtime error: " +:+ msg])
    end.

End run.

(** The printed lines that report an exception, and the one that reports
    the total. *)
Definition is_error (line : string) : bool := String.prefix "❌" line.

Definition is_total (line : string) : bool := String.prefix "Total models produced" line.

End Main.

(** * Properties *)

(** Unfolds the monad's combinators in a goal about one run of a method. *)
Ltac run_method :=
  unfold Py.bind, Py.get, Py.put, Py.ret, Py.raise, Py.print, Py.lift; simpl.

(** Splits on how the formatting of the numbers of a message ends. *)
Ltac formats :=
  repeat match goal with
  | |- context [format_number ?x] => destruct (format_number x); simpl
  | |- context [format_int ?x] => destruct (format_int x); simpl
  end.

(** Turns the tests of the source into propositions, in the hypotheses. *)
Ltac tests_to_props :=
  repeat match goal with
  | H : (_ <=? _) = true |- _ => apply Z.leb_le in H
  | H : (_ <=? _) = false |- _ => apply Z.leb_gt in H
  | H : (_ <? _) = true |- _ => apply Z.ltb_lt in H
  | H : (_ <? _) = false |- _ => apply Z.ltb_ge in H
  | H : bool_decide _ = true |- _ => apply bool_decide_eq_true_1 in H
  | H : bool_decide _ = false |- _ => apply bool_decide_eq_false_1 in H
  end.

(** ** Runtime *)

Lemma prefix_append (s1 s2 : string) :
  String.prefix s1 s2 = true <-> exists post, s2 = s1 +:+ post.
Proof.
  revert s2; induction s1 as [| a s1 IH]; intros s2.
  - split; [intros _; by exists s2 | by destruct s2].
  - destruct s2 as [| b s2]; simpl;
      [split; [discriminate | by intros [post Hpost]] |].
    destruct (Ascii.ascii_dec a b) as [-> | Hne].
    + split.
      * intros Hprefix; apply IH in Hprefix as [post ->]; by exists post.
      * intros [post [= ->]]; apply IH; by exists post.
    + split; [discriminate | intros [post [= Hab _]]; congruence].
Qed.

(** [contains] decides the occurrence of a substring. *)
Lemma contains_occurs (needle hay : string) :
  contains needle hay = true <-> exists pre post, hay = pre +:+ needle +:+ post.
Proof.
  split.
  - induction hay as [| c hay IH]; cbn [contains]; rewrite orb_true_iff.
    + intros [Hprefix | Hrest]; [| discriminate].
      apply prefix_append in Hprefix as [post Hpost]; by exists "", post.
    + intros [Hprefix | Hrest].
      * apply prefix_append in Hprefix as [post Hpost]; by exists "", post.
      * destruct (IH Hrest) as (pre & post & ->); by exists (String c pre), post.
  - intros (pre & post & ->).
    induction pre as [| c pre IH].
    + assert (Hprefix : String.prefix needle (needle +:+ post) = true)
        by (apply prefix_append; eauto).
      change ("" +:+ needle +:+ post) with (needle +:+ post).
      destruct (needle +:+ post); cbn [contains]; rewrite Hprefix; reflexivity.
    + change (String c pre +:+ needle +:+ post) with (String c (pre +:+ needle +:+ post)).
      cbn [contains]; rewrite IH; apply orb_true_r.
Qed.

(** An int of at most 640 digits is always converted; so is any int when
    no limit is set, or when it has no more digits than the limit. *)
Lemma format_int_returns `{Interpreter} (z : Z) :
  int_digits z <= 640 \/ int_max_str_digits <= 0 \/ int_digits z <= int_max_str_digits ->
  format_int z = Return (str_int z).
Proof.
  intros Hshort; unfold format_int.
  destruct (640 <? int_digits z) eqn:Hlong;
    destruct (0 <? int_max_str_digits) eqn:Hlimit;
    destruct (int_max_str_digits <? int_digits z) eqn:Hover;
    tests_to_props; simpl; try reflexivity; lia.
Qed.

(** The ints from 0 to 9999, the last year of [datetime], are short: their
    conversion is never refused. *)
Lemma short_int_formats `{Interpreter} (z : Z) :
  0 <= z <= 9999 -> format_int z = Return (str_int z).
Proof.
  intros Hz; apply format_int_returns; left.
  assert (Hall : forallb (fun n => int_digits (Z.of_nat n) <=? 640) (seq 0 (Z.to_nat 10000)) = true)
    by (by vm_compute).
  rewrite forallb_forall in Hall.
  specialize (Hall (Z.to_nat z)); rewrite Z2Nat.id in Hall by lia.
  apply Z.leb_le, Hall, in_seq; lia.
Qed.

(** An int of more than 640 digits is refused when a limit is set and it
    has more digits than the limit. *)
Lemma format_int_refuses `{Interpreter} (z : Z) :
  640 < int_digits z -> 0 < int_max_str_digits -> int_max_str_digits < int_digits z ->
  format_int z
  = Raise (ValueError ("Exceeds the limit (" +:+ str_int int_max_str_digits
                         +:+ " digits) for integer string conversion; "
                         +:+ "use sys.set_int_max_str_digits() to increase the limit")).
Proof.
  intros Hlong Hlimit Hover; unfold format_int.
  rewrite (proj2 (Z.ltb_lt _ _) Hlong), (proj2 (Z.ltb_lt _ _) Hlimit),
    (proj2 (Z.ltb_lt _ _) Hover); reflexivity.
Qed.

(** ** Engine *)

Lemma Engine_str_valid_types :
  str_list Engine.valid_types = "['2-stroke', '4-stroke', 'electric', 'diesel']".
Proof. reflexivity. Qed.

(** C5.  [Engine(horsepower, engine_type)]: a horsepower that is not
    positive raises the [ValueError] that names the field; an engine type
    outside the four valid ones raises a [ValueError], the one that lists
    the valid choices whenever the horsepower check has passed; in every
    other case the engine holds exactly the two arguments. *)
Theorem Engine_init_validates (horsepower : Z) (engine_type : string) :
  (horsepower <= 0 ->
     Engine.__init__ horsepower engine_type
     = Raise (ValueError "Horsepower must be positive."))
  /\ (engine_type ∉ Engine.valid_types ->
      exists msg,
        Engine.__init__ horsepower engine_type = Raise (ValueError msg)
        /\ (0 < horsepower ->
            msg = "Invalid engine type. Choose from: ['2-stroke', '4-stroke', 'electric', 'diesel']"))
  /\ (0 < horsepower -> engine_type ∈ Engine.valid_types ->
      Engine.__init__ horsepower engine_type
      = Return {| Engine.horsepower := horsepower; Engine.engine_type := engine_type |}).
Proof.
  unfold Engine.__init__, str_in.
  destruct (horsepower <=? 0) eqn:Hhp;
    destruct (bool_decide (engine_type ∈ Engine.valid_types)) eqn:Hty;
    tests_to_props; simpl; repeat split; intros;
    try lia; try contradiction; eauto; eexists; split; eauto; intros; lia.
Qed.

Lemma Engine_init_validates_witness :
  Engine.__init__ 0 "4-stroke" = Raise (ValueError "Horsepower must be positive.")
  /\ (exists msg, Engine.__init__ 120 "steam" = Raise (ValueError msg))
  /\ Engine.__init__ 120 "4-stroke" = Return (Engine.new 120 "4-stroke").
Proof.
  destruct (Engine_init_validates 0 "4-stroke") as (H0 & _ & _).
  destruct (Engine_init_validates 120 "steam") as (_ & H1 & _).
  destruct (Engine_init_validates 120 "4-stroke") as (_ & _ & H2).
  split; [apply H0; lia |].
  split.
  - destruct H1 as (msg & Hmsg & _); [compute_done | by exists msg].
  - apply H2; [lia | compute_done].
Defined.

(** ** Vehicle *)

Lemma Vehicle_str_valid :
  str_list Vehicle.valid = "['petrol', 'diesel', 'electric']".
Proof. reflexivity. Qed.

Lemma Vehicle_init_passes
    (current_year : Z) (uuid4 brand model : string) (year : Z) (fuel_type : string) :
  brand <> "" -> model <> "" -> 1900 <= year <= current_year ->
  fuel_type ∈ Vehicle.valid ->
  Vehicle.__init__ current_year uuid4 brand model year fuel_type
  = Return (Vehicle.new brand model year fuel_type uuid4).
Proof.
  intros Hbrand Hmodel Hyear Hfuel.
  unfold Vehicle.__init__, Vehicle._validate_nonempty, Vehicle._validate_year,
    Vehicle._validate_fuel, str_in.
  rewrite (bool_decide_eq_false_2 (brand = "")), (bool_decide_eq_false_2 (model = "")),
    (bool_decide_eq_true_2 (fuel_type ∈ Vehicle.valid)) by done.
  destruct (1900 <=? year) eqn:Hlo; destruct (year <=? current_year) eqn:Hhi;
    tests_to_props; simpl; (reflexivity || lia).
Qed.

(** The year that [Vehicle.__str__] converts directly: on a vehicle that
    [Vehicle.__init__] returned, with the clock within [datetime]'s years,
    the interpreter converts it, to the digits [str_int] gives. *)
Lemma Vehicle_init_year_formats `{Interpreter}
    (current_year : Z) (uuid4 brand model : string) (year : Z) (fuel_type : string)
    (v : Vehicle.t) :
  current_year <= 9999 ->
  Vehicle.__init__ current_year uuid4 brand model year fuel_type = Return v ->
  format_int (Vehicle._year v) = Return (str_int (Vehicle._year v)).
Proof.
  intros Hclock; unfold Vehicle.__init__, Vehicle._validate_year.
  destruct (Vehicle._validate_nonempty brand "Brand"); simpl; [| discriminate].
  destruct (Vehicle._validate_nonempty model "Model"); simpl; [| discriminate].
  destruct (1900 <=? year) eqn:Hlo; destruct (year <=? current_year) eqn:Hhi;
    simpl; try discriminate.
  destruct (Vehicle._validate_fuel fuel_type); simpl; [| discriminate].
  intros [= <-]; simpl; tests_to_props.
  apply short_int_formats; lia.
Qed.

(** The constructor of every concrete class starts with
    [Vehicle.__init__]: what that raises, the constructor raises, before
    any instance exists and before the class namespaces are touched. *)
Lemma constructors_raise_with_Vehicle
    (current_year : Z) (uuid4 brand model : string) (year : Z) (fuel_type : string)
    (e : exn) :
  Vehicle.__init__ current_year uuid4 brand model year fuel_type = Raise e ->
  (forall (engine : Engine.t) (has_sidecar : bool),
      Motorcycle.__init__ current_year uuid4 brand model year fuel_type engine has_sidecar
      = Raise e)
  /\ (forall (color : string) (capacity : Z) (engine : Engine.t),
      Bus.__init__ current_year uuid4 brand model year fuel_type color capacity engine
      = Raise e)
  /\ (forall (cls : Classes.name) (engine : Engine.t) (color : string) (num_doors : Z)
             (license_plate : string) (ns : Classes.attributes),
      Car.__init__ cls
        (Car.Args current_year uuid4 brand model year fuel_type engine color num_doors
           license_plate) ns
      = Run (Raise e) ns [])
  /\ (forall (engine : Engine.t) (color : string) (num_doors : Z)
             (license_plate : string) (ns : Classes.attributes),
      SportsCar.__init__
        (Car.Args current_year uuid4 brand model year fuel_type engine color num_doors
           license_plate) ns
      = Run (Raise e) ns []).
Proof.
  intros Hraise.
  unfold Motorcycle.__init__, Bus.__init__, SportsCar.__init__, Car.__init__; run_method.
  rewrite Hraise; simpl; repeat split.
Qed.

Lemma Vehicle_init_cases
    (current_year : Z) (uuid4 brand model : string) (year : Z) (fuel_type : string) :
  (brand = "" ->
     Vehicle.__init__ current_year uuid4 brand model year fuel_type
     = Raise (ValueError "Brand cannot be empty."))
  /\ (brand <> "" -> model = "" ->
      Vehicle.__init__ current_year uuid4 brand model year fuel_type
      = Raise (ValueError "Model cannot be empty."))
  /\ (brand <> "" -> model <> "" -> ~ (1900 <= year <= current_year) ->
      Vehicle.__init__ current_year uuid4 brand model year fuel_type
      = Raise (ValueError "Invalid year."))
  /\ (brand <> "" -> model <> "" -> 1900 <= year <= current_year ->
      fuel_type ∉ Vehicle.valid ->
      Vehicle.__init__ current_year uuid4 brand model year fuel_type
      = Raise (ValueError "Invalid fuel type. Choose from: ['petrol', 'diesel', 'electric']")).
Proof.
  unfold Vehicle.__init__, Vehicle._validate_nonempty, Vehicle._validate_year,
    Vehicle._validate_fuel, str_in.
  destruct (bool_decide (brand = "")) eqn:Hb;
    destruct (bool_decide (model = "")) eqn:Hm;
    destruct (1900 <=? year) eqn:Hlo;
    destruct (year <=? current_year) eqn:Hhi;
    destruct (bool_decide (fuel_type ∈ Vehicle.valid)) eqn:Hf;
    tests_to_props; simpl; repeat split; intros;
    try reflexivity; try contradiction; try lia; exfalso; auto.
Qed.

(** C3.  [Vehicle.__init__] checks the brand, the model, the year and the
    fuel type in this order and raises the [ValueError] of the first check
    that fails, whatever the later fields are; when the four checks pass
    it returns the vehicle with the four fields and the identifier drawn.
    The constructor of each concrete class raises what [Vehicle.__init__]
    raises and leaves no instance. *)
Theorem Vehicle_init_first_failure
    (current_year : Z) (uuid4 brand model : string) (year : Z) (fuel_type : string) :
  (brand = "" ->
     Vehicle.__init__ current_year uuid4 brand model year fuel_type
     = Raise (ValueError "Brand cannot be empty."))
  /\ (brand <> "" -> model = "" ->
      Vehicle.__init__ current_year uuid4 brand model year fuel_type
      = Raise (ValueError "Model cannot be empty."))
  /\ (brand <> "" -> model <> "" -> ~ (1900 <= year <= current_year) ->
      Vehicle.__init__ current_year uuid4 brand model year fuel_type
      = Raise (ValueError "Invalid year."))
  /\ (brand <> "" -> model <> "" -> 1900 <= year <= current_year ->
      fuel_type ∉ Vehicle.valid ->
      Vehicle.__init__ current_year uuid4 brand model year fuel_type
      = Raise (ValueError "Invalid fuel type. Choose from: ['petrol', 'diesel', 'electric']"))
  /\ (brand <> "" -> model <> "" -> 1900 <= year <= current_year ->
      fuel_type ∈ Vehicle.valid ->
      Vehicle.__init__ current_year uuid4 brand model year fuel_type
      = Return {| Vehicle._brand := brand; Vehicle._model := model;
                  Vehicle._year := year; Vehicle._fuel_type := fuel_type;
                  Vehicle.__vin := uuid4 |})
  /\ (forall e : exn,
      Vehicle.__init__ current_year uuid4 brand model year fuel_type = Raise e ->
      (forall (engine : Engine.t) (has_sidecar : bool),
          Motorcycle.__init__ current_year uuid4 brand model year fuel_type engine
            has_sidecar
          = Raise e)
      /\ (forall (color : string) (capacity : Z) (engine : Engine.t),
          Bus.__init__ current_year uuid4 brand model year fuel_type color capacity engine
          = Raise e)
      /\ (forall (cls : Classes.name) (engine : Engine.t) (color : string) (num_doors : Z)
                 (license_plate : string) (ns : Classes.attributes),
          Car.__init__ cls
            (Car.Args current_year uuid4 brand model year fuel_type engine color num_doors
               license_plate) ns
          = Run (Raise e) ns [])
      /\ (forall (engine : Engine.t) (color : string) (num_doors : Z)
                 (license_plate : string) (ns : Classes.attributes),
          SportsCar.__init__
            (Car.Args current_year uuid4 brand model year fuel_type engine color num_doors
               license_plate) ns
          = Run (Raise e) ns [])).
Proof.
  destruct (Vehicle_init_cases current_year uuid4 brand model year fuel_type)
    as (Hbrand & Hmodel & Hyear & Hfuel).
  repeat (split; [assumption |]).
  split; [apply Vehicle_init_passes |].
  apply constructors_raise_with_Vehicle.
Qed.

Lemma Vehicle_init_first_failure_witness :
  Vehicle.__init__ 2026 "vin" "" "" 1800 "steam"
  = Raise (ValueError "Brand cannot be empty.")
  /\ Vehicle.__init__ 2026 "vin" "Yamaha" "" 1800 "steam"
     = Raise (ValueError "Model cannot be empty.")
  /\ Vehicle.__init__ 2026 "vin" "Yamaha" "MT-09" 1800 "steam"
     = Raise (ValueError "Invalid year.")
  /\ Vehicle.__init__ 2026 "vin" "Yamaha" "MT-09" 2023 "steam"
     = Raise (ValueError "Invalid fuel type. Choose from: ['petrol', 'diesel', 'electric']")
  /\ Vehicle.__init__ 2026 "vin" "Yamaha" "MT-09" 2023 "petrol"
     = Return (Vehicle.new "Yamaha" "MT-09" 2023 "petrol" "vin").
Proof.
  split; [apply (Vehicle_init_first_failure 2026 "vin" "" "" 1800 "steam"); reflexivity |].
  split; [apply (Vehicle_init_first_failure 2026 "vin" "Yamaha" "" 1800 "steam");
          [discriminate | reflexivity] |].
  split; [apply (Vehicle_init_first_failure 2026 "vin" "Yamaha" "MT-09" 1800 "steam");
          [discriminate | discriminate | lia] |].
  split; [apply (Vehicle_init_first_failure 2026 "vin" "Yamaha" "MT-09" 2023 "steam");
          [discriminate | discriminate | lia | compute_done] |].
  apply (Vehicle_init_first_failure 2026 "vin" "Yamaha" "MT-09" 2023 "petrol");
    [discriminate | discriminate | lia | compute_done].
Defined.

(** ** Movement state *)

(** C6.  [brake()] on a vehicle of any class, at any speed: the speed
    becomes 0, the call returns the sentence that names the vehicle, and
    the odometer, the identity fields and the attributes of the class are
    those before the call; nothing is raised or printed. *)
Theorem brake_resets_speed_only {A : Type} (self : object A) :
  result (brake self) = Return (str self +:+ " stopped.")
  /\ speed (final (brake self)) = 0
  /\ odometer (final (brake self)) = odometer self
  /\ vehicle (final (brake self)) = vehicle self
  /\ own (final (brake self)) = own self
  /\ stdout (brake self) = [].
Proof. unfold brake; run_method; repeat split. Qed.

Lemma le0_Int (d : Z) : le0 (Int d) = true <-> d <= 0.
Proof. simpl; apply Z.leb_le. Qed.

Lemma accelerate_raises_unchanged {A : Type} (self : object A) (delta : Z) :
  delta <= 0 ->
  accelerate delta self = Run (Raise (ValueError "Speed can't be negative")) self [].
Proof.
  intros Hd; unfold accelerate.
  destruct (delta <=? 0) eqn:Htest; tests_to_props; [reflexivity | lia].
Qed.

Lemma accelerate_adds {A : Type} (self : object A) (delta : Z) :
  0 < delta ->
  accelerate delta self = Run (Return tt) (set_speed (speed self + delta) self) [].
Proof.
  intros Hd; unfold accelerate.
  destruct (delta <=? 0) eqn:Htest; tests_to_props; [lia | reflexivity].
Qed.

Lemma drive_raises_unchanged `{Interpreter} {A : Type} (self : object A) (distance : number) :
  le0 distance = true ->
  drive distance self
  = Run (Raise (ValueError "Distance must be greater than zero.")) self [].
Proof. intros Hd; unfold drive; rewrite Hd; reflexivity. Qed.

(** [drive] with a distance that passes: the odometer is assigned first,
    the summary is formatted afterwards, and its formatting can raise. *)
Lemma drive_adds `{Interpreter} {A : Type} (self : object A) (distance total : number) :
  le0 distance = false ->
  add (odometer self) distance = Return total ->
  drive distance self
  = Run (shown <-? format_number distance ;;
         total_shown <-? format_number total ;;
         Return (str self +:+ " drove " +:+ shown +:+ " km. Total: "
                   +:+ total_shown +:+ " km"))%py
        (set_odometer total self) [].
Proof.
  intros Hd Hadd; unfold drive; rewrite Hd; run_method; rewrite Hadd; simpl.
  destruct (format_number distance); simpl; [| reflexivity].
  change (odometer (set_odometer total self)) with total.
  destruct (format_number total); reflexivity.
Qed.

Lemma drive_overflows_unchanged `{Interpreter} {A : Type}
    (self : object A) (distance : number) (e : exn) :
  le0 distance = false ->
  add (odometer self) distance = Raise e ->
  drive distance self = Run (Raise e) self [].
Proof.
  intros Hd Hadd; unfold drive; rewrite Hd; run_method; rewrite Hadd; reflexivity.
Qed.

(** The state [drive] leaves, whatever its outcome. *)
Lemma drive_final `{Interpreter} {A : Type} (self : object A) (distance : number) :
  final (drive distance self)
  = (if le0 distance then self
     else match add (odometer self) distance with
          | Return total => set_odometer total self
          | Raise _ => self
          end)
  /\ stdout (drive distance self) = [].
Proof.
  destruct (le0 distance) eqn:Hd; [by rewrite drive_raises_unchanged |].
  destruct (add (odometer self) distance) as [total | e] eqn:Hadd.
  - by rewrite (drive_adds self distance total).
  - by rewrite (drive_overflows_unchanged self distance e).
Qed.

(** ** SportsCar *)

(** The gear that [shift_gear] converts directly: between 1 and 6, the
    interpreter converts it, to the digits [str_int] gives. *)
Lemma gear_formats `{Interpreter} (g : Z) :
  1 <= g <= 6 -> format_int g = Return (str_int g).
Proof. intros Hg; apply short_int_formats; lia. Qed.

Lemma shift_gear_raises_unchanged (self : SportsCar.t) (g : Z) :
  g < 1 \/ 6 < g ->
  SportsCar.shift_gear g self
  = Run (Raise (ValueError "Gear must be between 1 and 6.")) self [].
Proof.
  intros Hg; unfold SportsCar.shift_gear.
  destruct (g <? 1) eqn:Hlo; destruct (6 <? g) eqn:Hhi; tests_to_props;
    simpl; try reflexivity; lia.
Qed.

Lemma shift_gear_sets (self : SportsCar.t) (g : Z) :
  1 <= g <= 6 ->
  SportsCar.shift_gear g self
  = Run (Return tt) (set_own (SportsCar.set_gear g (own self)) self)
        ["Gear shifted to " +:+ str_int g].
Proof.
  intros Hg; unfold SportsCar.shift_gear.
  destruct (g <? 1) eqn:Hlo; destruct (6 <? g) eqn:Hhi; tests_to_props;
    simpl; try lia; reflexivity.
Qed.

Lemma set_spoiler_raises_unchanged `{Interpreter} (self : SportsCar.t) (kind : string) :
  kind ∉ SportsCar.spoiler_types ->
  SportsCar.set_spoiler kind self
  = Run (Raise (ValueError ("Invalid spoiler. Choose from: "
                              +:+ str_set SportsCar.spoiler_types))) self [].
Proof.
  intros Hk; unfold SportsCar.set_spoiler.
  rewrite bool_decide_eq_false_2 by done; reflexivity.
Qed.

Lemma set_spoiler_sets `{Interpreter} (self : SportsCar.t) (kind : string) :
  kind ∈ SportsCar.spoiler_types ->
  SportsCar.set_spoiler kind self
  = Run (Return tt) (set_own (SportsCar.set_spoiler_attr (Some kind) (own self)) self)
        ["Spoiler set to: " +:+ kind].
Proof.
  intros Hk; unfold SportsCar.set_spoiler.
  rewrite bool_decide_eq_true_2 by done; reflexivity.
Qed.

Lemma spoiler_types_members (kind : string) :
  kind ∈ SportsCar.spoiler_types <-> kind = "lip" \/ kind = "wing" \/ kind = "active".
Proof.
  unfold SportsCar.spoiler_types.
  rewrite !elem_of_union, !elem_of_singleton; tauto.
Qed.

(** C7.  [shift_gear(g)] raises its [ValueError] exactly when [g] is
    outside 1..6 and otherwise sets the gear to [g] (and prints the
    notification); [shift_gear(7)] raises and [shift_gear(3)] returns with
    the gear at 3. *)
Theorem shift_gear_range (self : SportsCar.t) (g : Z) :
  ((exists e, result (SportsCar.shift_gear g self) = Raise e) <-> g < 1 \/ 6 < g)
  /\ (g < 1 \/ 6 < g ->
      result (SportsCar.shift_gear g self)
      = Raise (ValueError "Gear must be between 1 and 6."))
  /\ (1 <= g <= 6 ->
      result (SportsCar.shift_gear g self) = Return tt
      /\ SportsCar._gear (own (final (SportsCar.shift_gear g self))) = g)
  /\ result (SportsCar.shift_gear 7 self)
     = Raise (ValueError "Gear must be between 1 and 6.")
  /\ result (SportsCar.shift_gear 3 self) = Return tt
  /\ SportsCar._gear (own (final (SportsCar.shift_gear 3 self))) = 3.
Proof.
  split; [| split; [| split; [| split; [| split]]]].
  - split.
    + intros [e He].
      destruct (Z_lt_dec g 1) as [|Hlo]; [by left |].
      destruct (Z_lt_dec 6 g) as [|Hhi]; [by right |].
      rewrite shift_gear_sets in He by lia; discriminate.
    + intros Hg; rewrite shift_gear_raises_unchanged by done; eauto.
  - intros Hg; by rewrite shift_gear_raises_unchanged.
  - intros Hg; by rewrite shift_gear_sets.
  - rewrite shift_gear_raises_unchanged by lia; reflexivity.
  - rewrite shift_gear_sets by lia; reflexivity.
  - rewrite shift_gear_sets by lia; reflexivity.
Qed.

(** C10.  The four validating mutators raise before they assign: when
    [accelerate(delta)] with [delta <= 0], [drive(distance)] with
    [distance <= 0], [shift_gear(g)] with [g] outside 1..6 or
    [set_spoiler(kind)] with [kind] outside the three spoiler types raises
    its [ValueError], the object left behind is the object before the call,
    field for field, and nothing was printed. *)
Theorem validation_failure_leaves_state :
  (forall (A : Type) (self : object A) (delta : Z),
      delta <= 0 ->
      accelerate delta self = Run (Raise (ValueError "Speed can't be negative")) self [])
  /\ (forall (I : Interpreter) (A : Type) (self : object A) (distance : number),
      le0 distance = true ->
      drive distance self
      = Run (Raise (ValueError "Distance must be greater than zero.")) self [])
  /\ (forall (self : SportsCar.t) (g : Z),
      g < 1 \/ 6 < g ->
      SportsCar.shift_gear g self
      = Run (Raise (ValueError "Gear must be between 1 and 6.")) self [])
  /\ (forall (I : Interpreter) (self : SportsCar.t) (kind : string),
      kind ∉ SportsCar.spoiler_types ->
      SportsCar.set_spoiler kind self
      = Run (Raise (ValueError ("Invalid spoiler. Choose from: "
                                  +:+ str_set SportsCar.spoiler_types))) self []).
Proof.
  split; [| split; [| split]].
  - intros A self delta; apply accelerate_raises_unchanged.
  - intros I A self distance; apply drive_raises_unchanged.
  - apply shift_gear_raises_unchanged.
  - intros I; apply set_spoiler_raises_unchanged.
Qed.

(** ** Motorcycle *)

Lemma attach_sidecar_already (self : Motorcycle.t) :
  Motorcycle._has_sidecar (own self) = true ->
  Motorcycle.attach_sidecar self = Run (Return "Sidecar already attached.") self [].
Proof. intros Hs; unfold Motorcycle.attach_sidecar; run_method; by rewrite Hs. Qed.

Lemma attach_sidecar_first (self : Motorcycle.t) :
  Motorcycle._has_sidecar (own self) = false ->
  Motorcycle.attach_sidecar self
  = Run (Return "Sidecar successfully attached.") (set_own (Motorcycle.set_has_sidecar true (own self)) self) [].
Proof. intros Hs; unfold Motorcycle.attach_sidecar; run_method; by rewrite Hs. Qed.

Lemma attach_sidecar_sets_flag (self : Motorcycle.t) :
  Motorcycle._has_sidecar (own (final (Motorcycle.attach_sidecar self))) = true.
Proof.
  destruct (Motorcycle._has_sidecar (own self)) eqn:Hs.
  - by rewrite attach_sidecar_already.
  - by rewrite attach_sidecar_first.
Qed.

(** C8.  [attach_sidecar()] with the flag set returns the "already
    attached" sentence and leaves the motorcycle as it is; with the flag
    unset it sets the flag, and nothing else, and returns the success
    sentence; after a first call any number of further calls leave the
    motorcycle as the first call left it, each returning "already
    attached". *)
Theorem attach_sidecar_idempotent (self : Motorcycle.t) :
  (Motorcycle._has_sidecar (own self) = true ->
     Motorcycle.attach_sidecar self = Run (Return "Sidecar already attached.") self [])
  /\ (Motorcycle._has_sidecar (own self) = false ->
      Motorcycle.attach_sidecar self
      = Run (Return "Sidecar successfully attached.") (set_own (Motorcycle.set_has_sidecar true (own self)) self) [])
  /\ (forall k : nat,
      let first := final (Motorcycle.attach_sidecar self) in
      let later := Nat.iter k (fun m => final (Motorcycle.attach_sidecar m)) first in
      later = first
      /\ Motorcycle.attach_sidecar later
         = Run (Return "Sidecar already attached.") first []).
Proof.
  split; [apply attach_sidecar_already | split; [apply attach_sidecar_first |]].
  intros k first later; subst later.
  assert (Hfirst : Motorcycle._has_sidecar (own first) = true)
    by apply attach_sidecar_sets_flag.
  assert (Hiter : Nat.iter k (fun m => final (Motorcycle.attach_sidecar m)) first = first).
  { induction k as [| k IH]; [reflexivity |].
    rewrite Nat.iter_succ, IH, attach_sidecar_already by done; reflexivity. }
  rewrite Hiter; split; [reflexivity | by apply attach_sidecar_already].
Qed.

Lemma add_zero (km : number) :
  le0 km = false -> exists total, add (Int 0) km = Return total.
Proof. destruct km; simpl; eauto. Qed.

Lemma Motorcycle_init_fresh
    (current_year : Z) (uuid4 brand model : string) (year : Z) (fuel_type : string)
    (engine : Engine.t) (has_sidecar : bool) (m : Motorcycle.t) :
  Motorcycle.__init__ current_year uuid4 brand model year fuel_type engine has_sidecar
  = Return m ->
  speed m = 0 /\ odometer m = Int 0
  /\ Vehicle.__init__ current_year uuid4 brand model year fuel_type = Return (vehicle m).
Proof.
  unfold Motorcycle.__init__.
  destruct (Vehicle.__init__ _ _ _ _ _ _) as [base |]; simpl; [| discriminate].
  intros [= <-]; done.
Qed.

Lemma ride_raises `{Interpreter} (m : Motorcycle.t) (km : number) :
  le0 km = true ->
  Motorcycle.ride km m
  = Run (Raise (ValueError "Distance must be greater than zero.")) m [].
Proof. intros Hkm; unfold Motorcycle.ride; by rewrite Hkm. Qed.

(** [ride] with a distance that passes: the speed and the odometer are
    assigned first; the summaries of [drive] and of [ride] are formatted
    afterwards, and their formatting can raise. *)
Lemma ride_rides `{Interpreter} (m : Motorcycle.t) (km total : number) :
  le0 km = false ->
  add (odometer m) km = Return total ->
  Motorcycle.ride km m
  = Run (shown <-? format_number km ;;
         total_shown <-? format_number total ;;
         Return (str m +:+ " rode " +:+ shown +:+ " km. Total: "
                   +:+ total_shown +:+ " km"))%py
        (set_odometer total (set_speed (speed m + 60) m)) [].
Proof.
  intros Hkm Hadd; unfold Motorcycle.ride; rewrite Hkm.
  unfold Py.bind; rewrite accelerate_adds by lia; simpl.
  rewrite (drive_adds _ km total) by done; simpl.
  change (odometer (set_odometer total (set_speed (speed m + 60) m))) with total.
  destruct (format_number km); simpl; [| reflexivity].
  destruct (format_number total); reflexivity.
Qed.

Lemma add_zero_formats `{Interpreter} (km total : number) :
  add (Int 0) km = Return total ->
  (forall shown, format_number km = Return shown ->
                 exists total_shown, format_number total = Return total_shown)
  /\ (forall e, format_number km = Raise e -> format_number total = Raise e).
Proof.
  destruct km as [k | f]; simpl.
  - intros [= <-]; split; [intros shown Hshown; by exists shown | done].
  - intros [= <-]; split; [intros shown _; by eexists | discriminate].
Qed.

(** The motorcycle of the scenario, whenever its construction returns. *)
Lemma moto1_constructed (current_year : Z) (uuid4 : string) (m : Motorcycle.t) :
  Scenario.moto1 current_year uuid4 = Return m ->
  m = Scenario.yamaha uuid4.
Proof.
  unfold Scenario.moto1, Motorcycle.__init__, Vehicle.__init__, Vehicle._validate_year.
  destruct (2023 <=? current_year) eqn:Hyear; vm_compute; [| discriminate].
  by intros [= <-].
Qed.

Lemma moto1_constructs (current_year : Z) (uuid4 : string) :
  2023 <= current_year ->
  Scenario.moto1 current_year uuid4
  = Return (Scenario.yamaha uuid4).
Proof.
  intros Hyear.
  unfold Scenario.moto1, Motorcycle.__init__, Vehicle.__init__, Vehicle._validate_year.
  destruct (2023 <=? current_year) eqn:Htest; tests_to_props; [| lia].
  by vm_compute.
Qed.

(** C2, as the code has it.  On a motorcycle as [Motorcycle(...)] returns
    it (speed 0, odometer 0), [ride(km)] with [km <= 0] raises its
    [ValueError] and leaves the motorcycle as it was; otherwise it does
    [accelerate(60)], then [drive(km)], leaving the speed at 60 and the
    odometer at [0 + km], and then formats the summary that ends with the
    total odometer: it returns that summary whenever [km] can be converted
    to a string (every float, every int of at most 640 digits, every int
    when the interpreter sets no limit or the int is within it), and it
    raises the interpreter's [ValueError], with the speed and the odometer
    already updated, when the conversion of [km] is refused.  For the
    Yamaha of the scenario, [ride(100)] leaves the speed at 60 and the
    odometer at the int 100, which equals 100.0, and returns
    "2023 Yamaha MT-09 (petrol) rode 100 km. Total: 100 km", which contains
    "rode 100 km" and "Total: 100 km". *)
Theorem ride_fresh_motorcycle `{Interpreter} :
  (forall (current_year : Z) (uuid4 brand model : string) (year : Z)
          (fuel_type : string) (engine : Engine.t) (has_sidecar : bool)
          (m : Motorcycle.t) (km : number),
      Motorcycle.__init__ current_year uuid4 brand model year fuel_type engine has_sidecar
      = Return m ->
      (le0 km = true ->
         Motorcycle.ride km m
         = Run (Raise (ValueError "Distance must be greater than zero.")) m [])
      /\ (le0 km = false ->
          final (Motorcycle.ride km m) = final (drive km (final (accelerate 60 m)))
          /\ exists total,
               add (Int 0) km = Return total
               /\ final (Motorcycle.ride km m) = set_odometer total (set_speed 60 m)
               /\ stdout (Motorcycle.ride km m) = []
               /\ (forall shown,
                      format_number km = Return shown ->
                      exists total_shown,
                        format_number total = Return total_shown
                        /\ result (Motorcycle.ride km m)
                           = Return (str m +:+ " rode " +:+ shown +:+ " km. Total: "
                                       +:+ total_shown +:+ " km"))
               /\ (forall e,
                      format_number km = Raise e ->
                      result (Motorcycle.ride km m) = Raise e)))
  /\ ((forall f, format_number (Float f) = Return (float_repr f))
      /\ (forall z,
            int_digits z <= 640 \/ int_max_str_digits <= 0
            \/ int_digits z <= int_max_str_digits ->
            format_number (Int z) = Return (str_int z)))
  /\ (forall (current_year : Z) (uuid4 : string) (m : Motorcycle.t),
      Scenario.moto1 current_year uuid4 = Return m ->
      speed (final (Motorcycle.ride (Int 100) m)) = 60
      /\ odometer (final (Motorcycle.ride (Int 100) m)) = Int 100
      /\ Py.eqb (odometer (final (Motorcycle.ride (Int 100) m))) (Float 100) = true
      /\ result (Motorcycle.ride (Int 100) m)
         = Return "2023 Yamaha MT-09 (petrol) rode 100 km. Total: 100 km"
      /\ contains "rode 100 km" "2023 Yamaha MT-09 (petrol) rode 100 km. Total: 100 km" = true
      /\ contains "Total: 100 km" "2023 Yamaha MT-09 (petrol) rode 100 km. Total: 100 km" = true).
Proof.
  split; [| split].
  - intros current_year uuid4 brand model year fuel_type engine has_sidecar m km Hinit.
    apply Motorcycle_init_fresh in Hinit as (Hspeed & Hodo & _).
    split; [apply ride_raises |].
    intros Hkm.
    destruct (add_zero km Hkm) as [total Hadd].
    assert (Hride := ride_rides m km total Hkm).
    rewrite Hodo, Hspeed in Hride.
    specialize (Hride Hadd); change (0 + 60) with 60 in Hride.
    split.
    + rewrite Hride, accelerate_adds by lia.
      rewrite (drive_adds _ km total); [by rewrite Hspeed | done |].
      change (add (odometer m) km = Return total); by rewrite Hodo.
    + exists total; rewrite Hride; simpl.
      destruct (add_zero_formats km total Hadd) as [Hreturns Hraises].
      repeat split; [done | |].
      * intros shown Hshown.
        destruct (Hreturns shown Hshown) as [total_shown Htotal].
        exists total_shown; by rewrite Hshown, Htotal.
      * intros e He; by rewrite He.
  - split; [done | apply format_int_returns].
  - intros current_year uuid4 m Hm.
    apply moto1_constructed in Hm as ->.
    by vm_compute.
Qed.

Lemma ride_fresh_motorcycle_witness :
  Scenario.moto1 2026 "vin" = Return (Scenario.yamaha "vin")
  /\ forall I : Interpreter,
      result (Motorcycle.ride (Int 100) (Scenario.yamaha "vin"))
      = Return "2023 Yamaha MT-09 (petrol) rode 100 km. Total: 100 km".
Proof.
  split; [apply moto1_constructs; lia |].
  intros I.
  apply (proj2 (proj2 (@ride_fresh_motorcycle I)) 2026 "vin").
  apply moto1_constructs; lia.
Defined.

(** C2 as stated fails: in no environment does the summary that
    [ride(100)] returns for the Yamaha of the scenario contain
    "Total: 100.0 km"; the odometer is the int 100 and prints as "100". *)
Lemma ride_100_total_is_not_100_0 :
  ~ exists (I : Interpreter) (current_year : Z) (uuid4 : string)
           (m : Motorcycle.t) (summary : string),
      Scenario.moto1 current_year uuid4 = Return m
      /\ result (Motorcycle.ride (Int 100) m) = Return summary
      /\ contains "Total: 100.0 km" summary = true.
Proof.
  intros (I & current_year & uuid4 & m & summary & Hm & Hride & Hcontains).
  apply moto1_constructed in Hm as ->.
  vm_compute in Hride.
  injection Hride as <-.
  vm_compute in Hcontains; discriminate.
Qed.

(** ** The production counter *)

Lemma Car_init_run (cls : Classes.name) (a : Car.args) (ns : Classes.attributes) :
  match Vehicle.__init__ (Car.current_year a) (Car.uuid4 a) (Car.brand a) (Car.model a)
          (Car.year a) (Car.fuel_type a) with
  | Return base =>
      Car.__init__ cls a ns
      = Run (Return (Object base vehicleMixin.__init__
                       (Car.new (Car.engine a) (Car.color a) (Car.num_doors a)
                          (Car.license_plate a))))
            (Classes.setattr cls (Classes.getattr cls ns + 1) ns) []
  | Raise e => Car.__init__ cls a ns = Run (Raise e) ns []
  end.
Proof.
  unfold Car.__init__; run_method.
  destruct (Vehicle.__init__ _ _ _ _ _ _); reflexivity.
Qed.

(** A construction changes [Car]'s own binding only when it is a plain
    [Car] that gets built. *)
Lemma construct_Car_model_produced (c : Production.construction) (ns : Classes.attributes) :
  Classes.Car_model_produced (final (Production.construct c ns))
  = Classes.Car_model_produced ns
    + match c with
      | Production.NewCar _ => if Production.constructed c ns then 1 else 0
      | Production.NewSportsCar _ => 0
      end.
Proof.
  unfold Production.constructed.
  destruct c as [a | a]; simpl; unfold SportsCar.__init__, Py.bind;
    [pose proof (Car_init_run Classes.Car a ns) as Hrun
    | pose proof (Car_init_run Classes.SportsCar a ns) as Hrun];
    destruct (Vehicle.__init__ _ _ _ _ _ _); rewrite Hrun; simpl; lia.
Qed.

(** After any sequence of constructions, [Car.model_produced] has grown by
    the number of plain cars built: sports cars are not counted in it. *)
Lemma Car_model_produced_counts_cars
    (cs : list Production.construction) (ns : Classes.attributes) :
  Classes.getattr Classes.Car (Production.produce cs ns)
  = Classes.getattr Classes.Car ns + Production.cars cs ns.
Proof.
  revert ns; induction cs as [| c cs IH]; intros ns; simpl; [lia |].
  rewrite IH; simpl; rewrite construct_Car_model_produced; lia.
Qed.

(** C1, evaluated.  Two cars and then one sports car are built, as in
    [main]; afterwards [Car.model_produced] is 2, not 3: the increment of
    the sports car went to a binding [SportsCar.model_produced] of its own,
    which reads 3. *)
Theorem two_cars_one_sports_car_count_two (u1 u2 u3 : string) :
  let cs := [Production.NewCar (Scenario.car1 2026 u1);
             Production.NewCar (Scenario.car2 2026 u2);
             Production.NewSportsCar (Scenario.sport1 2026 u3)] in
  Production.cars cs Classes.loaded = 2
  /\ Production.sports_cars cs Classes.loaded = 1
  /\ Classes.getattr Classes.Car Classes.loaded = 0
  /\ Classes.getattr Classes.Car (Production.produce cs Classes.loaded) = 2
  /\ Classes.getattr Classes.SportsCar (Production.produce cs Classes.loaded) = 3.
Proof. by vm_compute. Qed.

(** ** Bus *)

Lemma string_length_append (a b : string) :
  String.length (a +:+ b) = (String.length a + String.length b)%nat.
Proof. induction a as [| ch a IH]; simpl; [reflexivity | by rewrite IH]. Qed.

(** The sentence of a boarding is never the sentence of a full bus. *)
Lemma boarded_is_not_full (name : string) :
  name +:+ " ავიდა ავტობუსში" <> "ავტობუსი სავსეა!".
Proof.
  destruct name as [| ch name]; [discriminate |].
  intros Heq; apply (f_equal String.length) in Heq.
  rewrite string_length_append in Heq.
  change (String.length " ავიდა ავტობუსში") with 44%nat in Heq.
  change (String.length "ავტობუსი სავსეა!") with 44%nat in Heq.
  simpl in Heq; lia.
Qed.

Lemma add_passenger_boards (self : Bus.t) (name : string) :
  Z.of_nat (length (Bus._passengers (own self))) < Bus.__capacity (own self) ->
  Bus.add_passenger name self
  = Run (Return (name +:+ " ავიდა ავტობუსში"))
        (set_own (Bus.set_passengers (Bus._passengers (own self) ++ [name]) (own self)) self)
        [].
Proof.
  intros Hroom; unfold Bus.add_passenger; run_method.
  destruct (_ <? _) eqn:Htest; tests_to_props; [reflexivity | lia].
Qed.

Lemma add_passenger_full (self : Bus.t) (name : string) :
  Bus.__capacity (own self) <= Z.of_nat (length (Bus._passengers (own self))) ->
  Bus.add_passenger name self = Run (Return "ავტობუსი სავსეა!") self [].
Proof.
  intros Hfull; unfold Bus.add_passenger; run_method.
  destruct (_ <? _) eqn:Htest; tests_to_props; [lia | reflexivity].
Qed.

Lemma list_remove_length (x : string) (l : list string) :
  (length (Bus.list_remove x l) <= length l)%nat.
Proof.
  induction l as [| y l IH]; simpl; [lia |].
  destruct (bool_decide (y = x)); simpl; lia.
Qed.

(** No call rebinds the capacity. *)
Lemma perform_keeps_capacity `{Interpreter} (c : Trip.call) (self : Bus.t) :
  Bus.__capacity (own (final (Trip.perform c self))) = Bus.__capacity (own self).
Proof.
  destruct c as [v | | d | col | hp | n | n]; simpl.
  - unfold accelerate; destruct (v <=? 0); reflexivity.
  - reflexivity.
  - unfold drive; destruct (le0 d); run_method; [reflexivity |].
    destruct (add (odometer self) d); simpl; formats; reflexivity.
  - unfold Bus.change_color; run_method.
    destruct (bool_decide (col = Bus._color (own self))); reflexivity.
  - unfold Bus.increase_horse_power; destruct (0 <? hp); run_method; formats; reflexivity.
  - unfold Bus.add_passenger; run_method; destruct (_ <? _); reflexivity.
  - unfold Bus.remove_passenger; run_method; destruct (str_in _ _); reflexivity.
Qed.

(** Every call changes the roster as [add_passenger] or [remove_passenger]
    does, or not at all. *)
Lemma perform_roster `{Interpreter} (c : Trip.call) (self : Bus.t) :
  let before := Bus._passengers (own self) in
  let after := Bus._passengers (own (final (Trip.perform c self))) in
  after = before
  \/ (exists n, c = Trip.AddPassenger n
                /\ Z.of_nat (length before) < Bus.__capacity (own self)
                /\ after = before ++ [n])
  \/ (exists n, c = Trip.RemovePassenger n /\ after = Bus.list_remove n before).
Proof.
  destruct c as [v | | d | col | hp | n | n]; simpl.
  - left; unfold accelerate; destruct (v <=? 0); reflexivity.
  - left; reflexivity.
  - left; unfold drive; destruct (le0 d); run_method; [reflexivity |].
    destruct (add (odometer self) d); simpl; formats; reflexivity.
  - left; unfold Bus.change_color; run_method.
    destruct (bool_decide (col = Bus._color (own self))); reflexivity.
  - left; unfold Bus.increase_horse_power; destruct (0 <? hp); run_method; formats; reflexivity.
  - unfold Bus.add_passenger; run_method.
    destruct (_ <? _) eqn:Htest; tests_to_props; simpl; [| by left].
    right; left; exists n; done.
  - unfold Bus.remove_passenger; run_method.
    destruct (str_in _ _); simpl; [| by left].
    right; right; exists n; done.
Qed.

Lemma perform_keeps_bound `{Interpreter} (c : Trip.call) (self : Bus.t) :
  Z.of_nat (length (Bus._passengers (own self))) <= Bus.__capacity (own self) ->
  Z.of_nat (length (Bus._passengers (own (final (Trip.perform c self)))))
  <= Bus.__capacity (own (final (Trip.perform c self))).
Proof.
  intros Hbound; rewrite perform_keeps_capacity.
  destruct (perform_roster c self) as [-> | [(n & _ & Hroom & ->) | (n & _ & ->)]].
  - done.
  - rewrite length_app; simpl; lia.
  - pose proof (list_remove_length n (Bus._passengers (own self))); lia.
Qed.

Lemma after_keeps_capacity `{Interpreter} (cs : list Trip.call) (self : Bus.t) :
  Bus.__capacity (own (Trip.after cs self)) = Bus.__capacity (own self).
Proof.
  revert self; induction cs as [| c cs IH]; intros self; simpl; [reflexivity |].
  by rewrite IH, perform_keeps_capacity.
Qed.

Lemma after_keeps_bound `{Interpreter} (cs : list Trip.call) (self : Bus.t) :
  Z.of_nat (length (Bus._passengers (own self))) <= Bus.__capacity (own self) ->
  Z.of_nat (length (Bus._passengers (own (Trip.after cs self))))
  <= Bus.__capacity (own (Trip.after cs self)).
Proof.
  revert self; induction cs as [| c cs IH]; intros self Hbound; simpl; [done |].
  by apply IH, perform_keeps_bound.
Qed.

(** With a capacity of 0 or less an empty roster stays empty. *)
Lemma after_keeps_empty `{Interpreter} (cs : list Trip.call) (self : Bus.t) :
  Bus.__capacity (own self) <= 0 ->
  Bus._passengers (own self) = [] ->
  Bus._passengers (own (Trip.after cs self)) = [].
Proof.
  revert self; induction cs as [| c cs IH]; intros self Hcap Hempty; simpl; [done |].
  apply IH; [by rewrite perform_keeps_capacity |].
  destruct (perform_roster c self) as [-> | [(n & _ & Hroom & _) | (n & _ & ->)]].
  - done.
  - rewrite Hempty in Hroom; simpl in Hroom; lia.
  - by rewrite Hempty.
Qed.

Lemma Bus_init_returns
    (current_year : Z) (uuid4 brand model : string) (year : Z) (fuel_type color : string)
    (capacity : Z) (engine : Engine.t) (b : Bus.t) :
  Bus.__init__ current_year uuid4 brand model year fuel_type color capacity engine
  = Return b ->
  exists base,
    Vehicle.__init__ current_year uuid4 brand model year fuel_type = Return base
    /\ b = Object base vehicleMixin.__init__ (Bus.new color capacity engine []).
Proof.
  unfold Bus.__init__.
  destruct (Vehicle.__init__ _ _ _ _ _ _) as [base |]; simpl; [| discriminate].
  intros [= <-]; eauto.
Qed.

(** Boarding [names] one after the other while there is room for all. *)
Lemma board_fills `{Interpreter} (names ps : list string)
    (base : Vehicle.t) (mv : vehicleMixin.t) (color : string) (capacity : Z)
    (engine : Engine.t) :
  Z.of_nat (length ps + length names) <= capacity ->
  Trip.board names (Object base mv (Bus.new color capacity engine ps))
  = (map (fun n => Return (n +:+ " ავიდა ავტობუსში")) names,
     Object base mv (Bus.new color capacity engine (ps ++ names))).
Proof.
  revert ps; induction names as [| n names IH]; intros ps Hroom.
  - simpl; by rewrite app_nil_r.
  - simpl in Hroom; cbn [Trip.board map].
    rewrite add_passenger_boards by (simpl; lia).
    unfold set_own, Bus.set_passengers; simpl.
    rewrite IH by (rewrite length_app; simpl; lia).
    by rewrite <- app_assoc.
Qed.

Lemma board_app `{Interpreter} (names more : list string) (self : Bus.t) :
  Trip.board (names ++ more) self
  = (fst (Trip.board names self) ++ fst (Trip.board more (snd (Trip.board names self))),
     snd (Trip.board more (snd (Trip.board names self)))).
Proof.
  revert self; induction names as [| n names IH]; intros self.
  - simpl; by destruct (Trip.board more self).
  - cbn [Trip.board app]; rewrite IH.
    destruct (Trip.board names (final (Bus.add_passenger n self))) as [answers self'].
    reflexivity.
Qed.

(** C4.  [add_passenger(name)] on a bus of capacity [c]: when the roster
    is shorter than [c] it appends [name] at the end (nothing else
    changes, equal names are accepted) and returns the boarding sentence;
    otherwise it returns the "bus is full" sentence, raises nothing and
    leaves the bus as it was; it returns the boarding sentence exactly
    when the roster was shorter than [c].  So a roster within [c] stays
    within [c]: on a bus built with a capacity [c >= 0] the roster is never
    longer than [c], whatever calls are made, and of [c + 1] calls of
    [add_passenger] on the new bus the first [c] board and the last one is
    the first to be refused. *)
Theorem add_passenger_respects_capacity `{Interpreter} :
  (forall (self : Bus.t) (name : string),
      (Z.of_nat (length (Bus._passengers (own self))) < Bus.__capacity (own self) ->
         Bus.add_passenger name self
         = Run (Return (name +:+ " ავიდა ავტობუსში"))
               (set_own (Bus.set_passengers (Bus._passengers (own self) ++ [name])
                           (own self)) self) [])
      /\ (~ Z.of_nat (length (Bus._passengers (own self))) < Bus.__capacity (own self) ->
          Bus.add_passenger name self = Run (Return "ავტობუსი სავსეა!") self [])
      /\ (result (Bus.add_passenger name self) = Return (name +:+ " ავიდა ავტობუსში")
          <-> Z.of_nat (length (Bus._passengers (own self))) < Bus.__capacity (own self))
      /\ (Z.of_nat (length (Bus._passengers (own self))) <= Bus.__capacity (own self) ->
          Z.of_nat (length (Bus._passengers (own (final (Bus.add_passenger name self)))))
          <= Bus.__capacity (own (final (Bus.add_passenger name self)))))
  /\ (forall (current_year : Z) (uuid4 brand model : string) (year : Z)
             (fuel_type color : string) (capacity : Z) (engine : Engine.t)
             (b : Bus.t) (cs : list Trip.call),
      0 <= capacity ->
      Bus.__init__ current_year uuid4 brand model year fuel_type color capacity engine
      = Return b ->
      Z.of_nat (length (Bus._passengers (own (Trip.after cs b)))) <= capacity)
  /\ (forall (current_year : Z) (uuid4 brand model : string) (year : Z)
             (fuel_type color : string) (engine : Engine.t)
             (b : Bus.t) (names : list string) (late : string),
      Bus.__init__ current_year uuid4 brand model year fuel_type color
        (Z.of_nat (length names)) engine
      = Return b ->
      Trip.board (names ++ [late]) b
      = (map (fun n => Return (n +:+ " ავიდა ავტობუსში")) names
           ++ [Return "ავტობუსი სავსეა!"],
         set_own (Bus.set_passengers names (own b)) b)).
Proof.
  split; [| split].
  - intros self name; split; [apply add_passenger_boards |].
    split; [intros Hfull; apply add_passenger_full; lia |].
    split.
    + split.
      * intros Hres.
        destruct (Z_lt_dec (Z.of_nat (length (Bus._passengers (own self))))
                    (Bus.__capacity (own self))) as [| Hfull]; [done |].
        rewrite add_passenger_full in Hres by lia; simpl in Hres.
        injection Hres as Hres; symmetry in Hres.
        by apply boarded_is_not_full in Hres.
      * intros Hroom; by rewrite add_passenger_boards.
    + apply (perform_keeps_bound (Trip.AddPassenger name)).
  - intros current_year uuid4 brand model year fuel_type color capacity engine b cs
      Hcap Hinit.
    apply Bus_init_returns in Hinit as (base & _ & ->).
    pose proof (after_keeps_bound cs
                  (Object base vehicleMixin.__init__ (Bus.new color capacity engine [])))
      as Hbound.
    rewrite after_keeps_capacity in Hbound; apply Hbound; simpl; lia.
  - intros current_year uuid4 brand model year fuel_type color engine b names late Hinit.
    apply Bus_init_returns in Hinit as (base & _ & ->).
    rewrite board_app, (board_fills names []) by (simpl; lia).
    cbn [fst snd Trip.board app].
    rewrite add_passenger_full by (simpl; lia); reflexivity.
Qed.

Lemma add_passenger_respects_capacity_witness :
  Bus.__init__ 2026 "vin" "MAN" "Lion's City" 2017 "diesel" "Blue" 1
    (Engine.new 280 "4-stroke")
  = Return (Object (Vehicle.new "MAN" "Lion's City" 2017 "diesel" "vin")
              vehicleMixin.__init__ (Bus.new "Blue" 1 (Engine.new 280 "4-stroke") []))
  /\ forall I : Interpreter,
      Trip.board (["A"] ++ ["B"])
        (Object (Vehicle.new "MAN" "Lion's City" 2017 "diesel" "vin")
           vehicleMixin.__init__ (Bus.new "Blue" 1 (Engine.new 280 "4-stroke") []))
      = ([Return "A ავიდა ავტობუსში"; Return "ავტობუსი სავსეა!"],
         Object (Vehicle.new "MAN" "Lion's City" 2017 "diesel" "vin")
           vehicleMixin.__init__ (Bus.new "Blue" 1 (Engine.new 280 "4-stroke") ["A"])).
Proof.
  split; [reflexivity |].
  intros I.
  exact (proj2 (proj2 (@add_passenger_respects_capacity I))
           2026 "vin" "MAN" "Lion's City" 2017 "diesel" "Blue" (Engine.new 280 "4-stroke")
           _ ["A"] "B" eq_refl).
Defined.

(** C9.  [Bus(...)] runs no check on its capacity: with a brand, a model,
    a year and a fuel type that pass, it returns the bus for every
    capacity, zero and negative ones included; and when the capacity is 0
    or less, after any calls on that bus every [add_passenger] returns the
    "bus is full" sentence, changes nothing, and the roster is empty. *)
Theorem Bus_init_takes_any_capacity `{Interpreter}
    (current_year : Z) (uuid4 brand model : string) (year : Z) (fuel_type color : string)
    (capacity : Z) (engine : Engine.t) :
  brand <> "" -> model <> "" -> 1900 <= year <= current_year ->
  fuel_type ∈ Vehicle.valid ->
  Bus.__init__ current_year uuid4 brand model year fuel_type color capacity engine
  = Return (Object (Vehicle.new brand model year fuel_type uuid4) vehicleMixin.__init__
              (Bus.new color capacity engine []))
  /\ (capacity <= 0 ->
      forall (cs : list Trip.call) (name : string),
        Bus._passengers
          (own (Trip.after cs
                  (Object (Vehicle.new brand model year fuel_type uuid4)
                     vehicleMixin.__init__ (Bus.new color capacity engine [])))) = []
        /\ Bus.add_passenger name
             (Trip.after cs
                (Object (Vehicle.new brand model year fuel_type uuid4)
                   vehicleMixin.__init__ (Bus.new color capacity engine [])))
           = Run (Return "ავტობუსი სავსეა!")
               (Trip.after cs
                  (Object (Vehicle.new brand model year fuel_type uuid4)
                     vehicleMixin.__init__ (Bus.new color capacity engine []))) []).
Proof.
  intros Hbrand Hmodel Hyear Hfuel; split.
  - unfold Bus.__init__; by rewrite Vehicle_init_passes.
  - intros Hcap cs name.
    set (b := Object _ _ _).
    assert (Hempty : Bus._passengers (own (Trip.after cs b)) = [])
      by (by apply after_keeps_empty).
    split; [done |].
    apply add_passenger_full.
    rewrite Hempty, after_keeps_capacity; simpl; lia.
Qed.

Lemma Bus_init_takes_any_capacity_witness :
  ("MAN" <> "" /\ "Lion's City" <> "" /\ 1900 <= 2017 <= 2026 /\ "diesel" ∈ Vehicle.valid)
  /\ forall I : Interpreter,
      Bus.__init__ 2026 "vin" "MAN" "Lion's City" 2017 "diesel" "Blue" (-3)
        (Engine.new 280 "4-stroke")
      = Return (Object (Vehicle.new "MAN" "Lion's City" 2017 "diesel" "vin")
                  vehicleMixin.__init__
                  (Bus.new "Blue" (-3) (Engine.new 280 "4-stroke") [])).
Proof.
  assert (Hhyps : "MAN" <> "" /\ "Lion's City" <> "" /\ 1900 <= 2017 <= 2026
                  /\ "diesel" ∈ Vehicle.valid)
    by (repeat split; (discriminate || lia || compute_done)).
  split; [exact Hhyps |].
  intros I.
  destruct Hhyps as (Hbrand & Hmodel & Hyear & Hfuel).
  exact (proj1 (@Bus_init_takes_any_capacity I 2026 "vin" "MAN" "Lion's City" 2017
                  "diesel" "Blue" (-3) (Engine.new 280 "4-stroke")
                  Hbrand Hmodel Hyear Hfuel)).
Defined.

(** ** The scenario's instances *)

Lemma ferrari_constructed (uuid4 : string) :
  SportsCar.__init__ (Scenario.sport1 2026 uuid4) Classes.loaded
  = Run (Return (Scenario.ferrari uuid4))
        (Classes.new 0 (Some 1)) [].
Proof. by vm_compute. Qed.

Lemma shift_gear_range_witness :
  result (SportsCar.shift_gear 7 (Scenario.ferrari "vin"))
  = Raise (ValueError "Gear must be between 1 and 6.")
  /\ result (SportsCar.shift_gear 3 (Scenario.ferrari "vin")) = Return tt
  /\ SportsCar._gear (own (final (SportsCar.shift_gear 3 (Scenario.ferrari "vin")))) = 3.
Proof.
  destruct (shift_gear_range (Scenario.ferrari "vin") 7) as (_ & Hraise & _).
  destruct (shift_gear_range (Scenario.ferrari "vin") 3) as (_ & _ & Hset & _).
  split; [apply Hraise; lia |].
  apply Hset; lia.
Defined.

Lemma attach_sidecar_idempotent_witness :
  Motorcycle.attach_sidecar (Scenario.yamaha "vin")
  = Run (Return "Sidecar successfully attached.")
        (set_own (Motorcycle.set_has_sidecar true (own (Scenario.yamaha "vin")))
           (Scenario.yamaha "vin")) []
  /\ Motorcycle.attach_sidecar (final (Motorcycle.attach_sidecar (Scenario.yamaha "vin")))
     = Run (Return "Sidecar already attached.")
           (final (Motorcycle.attach_sidecar (Scenario.yamaha "vin"))) [].
Proof.
  destruct (attach_sidecar_idempotent (Scenario.yamaha "vin")) as (_ & Hfirst & Hlater).
  split; [apply Hfirst; reflexivity |].
  exact (proj2 (Hlater 0%nat)).
Defined.

Lemma validation_failure_leaves_state_witness :
  accelerate (-5) (Scenario.ferrari "vin")
  = Run (Raise (ValueError "Speed can't be negative")) (Scenario.ferrari "vin") []
  /\ (forall I : Interpreter,
      drive (Int 0) (Scenario.ferrari "vin")
      = Run (Raise (ValueError "Distance must be greater than zero."))
            (Scenario.ferrari "vin") [])
  /\ SportsCar.shift_gear 7 (Scenario.ferrari "vin")
     = Run (Raise (ValueError "Gear must be between 1 and 6.")) (Scenario.ferrari "vin") []
  /\ (forall I : Interpreter,
      SportsCar.set_spoiler "ducktail" (Scenario.ferrari "vin")
      = Run (Raise (ValueError ("Invalid spoiler. Choose from: "
                                  +:+ str_set SportsCar.spoiler_types)))
            (Scenario.ferrari "vin") []).
Proof.
  destruct validation_failure_leaves_state as (Hacc & Hdrive & Hgear & Hspoiler).
  split; [apply Hacc; lia |].
  split; [intros I; apply Hdrive; reflexivity |].
  split; [apply Hgear; lia |].
  intros I; apply Hspoiler; compute_done.
Defined.

(** * Further properties of the code *)

(** ** Movement state, over several calls *)



Lemma Journey_perform_speed `{Interpreter} {A : Type} (c : Journey.call) (self : object A) :
  0 <= speed self -> 0 <= speed (final (Journey.perform c self)).
Proof.
  intros Hs; destruct c as [v | | d]; simpl.
  - unfold accelerate; destruct (v <=? 0) eqn:Hv; tests_to_props; simpl; [done |].
    unfold speed in *; simpl; lia.
  - unfold Py.bind, brake; run_method; unfold speed; simpl; lia.
  - unfold Py.bind; unfold drive; destruct (le0 d); run_method; [done |].
    destruct (add (odometer self) d); simpl; formats; done.
Qed.

Lemma Journey_perform_frame `{Interpreter} {A : Type} (c : Journey.call) (self : object A) :
  vehicle (final (Journey.perform c self)) = vehicle self
  /\ own (final (Journey.perform c self)) = own self.
Proof.
  destruct c as [v | | d]; simpl.
  - unfold accelerate; destruct (v <=? 0); done.
  - done.
  - unfold Py.bind; unfold drive; destruct (le0 d); run_method; [done |].
    destruct (add (odometer self) d); simpl; formats; done.
Qed.

(** The speed is never negative: no sequence of [accelerate], [brake] and
    [drive] calls, failed ones included, takes a vehicle of any class from
    a speed of 0 or more to a speed below 0. *)
Lemma speed_never_negative `{Interpreter} {A : Type}
    (cs : list Journey.call) (self : object A) :
  0 <= speed self -> 0 <= speed (Journey.after cs self).
Proof.
  revert self; induction cs as [| c cs IH]; intros self Hs; simpl; [done |].
  by apply IH, Journey_perform_speed.
Qed.

Lemma speed_never_negative_witness :
  0 <= speed (Scenario.ferrari "vin")
  /\ forall I : Interpreter,
      0 <= speed (Journey.after
                    [Journey.Accelerate 120; Journey.Accelerate (-500);
                     Journey.Drive (Int 150); Journey.Brake; Journey.Accelerate 7]
                    (Scenario.ferrari "vin")).
Proof.
  assert (Hs : 0 <= speed (Scenario.ferrari "vin")) by (by vm_compute).
  split; [exact Hs |].
  intros I; exact (speed_never_negative _ _ Hs).
Defined.

Lemma drive_int_adds `{Interpreter} {A : Type} (self : object A) (o d : Z) :
  odometer self = Int o -> 0 < d ->
  final (drive (Int d) self) = set_odometer (Int (o + d)) self.
Proof.
  intros Ho Hd.
  rewrite (drive_adds self (Int d) (Int (o + d))); [done | |].
  - simpl; by apply Z.leb_gt.
  - by rewrite Ho.
Qed.

(** Driving whole kilometres adds up exactly: after [drive(d)] for each
    positive int [d] of [ds], an int odometer [o] reads [o] plus the sum
    of [ds], and the speed, the identity and the attributes of the class
    are untouched. *)
Lemma drives_add_up `{Interpreter} {A : Type} (ds : list Z) (self : object A) (o : Z) :
  odometer self = Int o ->
  Forall (fun d => 0 < d) ds ->
  odometer (Journey.drives ds self) = Int (o + fold_right Z.add 0 ds)
  /\ speed (Journey.drives ds self) = speed self
  /\ vehicle (Journey.drives ds self) = vehicle self
  /\ own (Journey.drives ds self) = own self.
Proof.
  unfold Journey.drives.
  revert self o; induction ds as [| d ds IH]; intros self o Ho Hds; simpl.
  - rewrite Ho, Z.add_0_r; done.
  - inversion Hds as [| ? ? Hd Hds']; subst.
    assert (Hstep : final ((drive (Int d) ;; ret tt)%py self)
                    = set_odometer (Int (o + d)) self)
      by (unfold Py.bind; rewrite <- (drive_int_adds self o d Ho Hd);
          destruct (drive (Int d) self) as [[? | ?] ? ?]; reflexivity).
    rewrite Hstep.
    destruct (IH (set_odometer (Int (o + d)) self) (o + d)) as (Hodo & Hspeed & Hveh & Hown);
      [done | done |].
    rewrite Hodo, Hspeed, Hveh, Hown; repeat split.
    f_equal; lia.
Qed.

Lemma drives_add_up_witness :
  (odometer (Scenario.ferrari "vin") = Int 0 /\ Forall (fun d => 0 < d) [150; 60; 1])
  /\ forall I : Interpreter,
      odometer (Journey.drives [150; 60; 1] (Scenario.ferrari "vin")) = Int 211.
Proof.
  assert (Hhyps : odometer (Scenario.ferrari "vin") = Int 0
                  /\ Forall (fun d => 0 < d) [150; 60; 1])
    by (split; [reflexivity | repeat constructor]).
  split; [exact Hhyps |].
  intros I; destruct Hhyps as [Ho Hds].
  exact (proj1 (drives_add_up [150; 60; 1] (Scenario.ferrari "vin") 0 Ho Hds)).
Defined.

(** Where [drive] can raise, and what it has done by then.  It prints
    nothing, and an exception [e] has one of three origins: the distance is
    0 or less ([ValueError], nothing assigned); adding the distance to the
    odometer raises ([OverflowError] of an int beyond the doubles, nothing
    assigned); or the odometer has been assigned its new total and the
    interpreter then refuses to convert the distance or the total to a
    string for the message, so the error leaves the new odometer behind.
    In particular an int distance the interpreter refuses to convert is
    still added to an int odometer. *)
Lemma drive_raises_three_ways `{Interpreter} {A : Type}
    (self : object A) (distance : number) :
  stdout (drive distance self) = []
  /\ (forall e,
        result (drive distance self) = Raise e ->
        (le0 distance = true
         /\ e = ValueError "Distance must be greater than zero."
         /\ final (drive distance self) = self)
        \/ (le0 distance = false
            /\ add (odometer self) distance = Raise e
            /\ final (drive distance self) = self)
        \/ (exists total,
              le0 distance = false
              /\ add (odometer self) distance = Return total
              /\ (format_number distance = Raise e
                  \/ (exists shown, format_number distance = Return shown)
                     /\ format_number total = Raise e)
              /\ final (drive distance self) = set_odometer total self))
  /\ (forall o d e,
        distance = Int d -> odometer self = Int o -> 0 < d ->
        format_int d = Raise e ->
        drive distance self = Run (Raise e) (set_odometer (Int (o + d)) self) []).
Proof.
  split; [apply drive_final | split].
  - intros e.
    destruct (le0 distance) eqn:Hd.
    { rewrite drive_raises_unchanged by done; simpl.
      intros [= <-]; left; done. }
    destruct (add (odometer self) distance) as [total | e'] eqn:Hadd.
    + rewrite (drive_adds self distance total) by done; simpl.
      intros Hraise; right; right; exists total.
      split; [done | split; [done | split; [| done]]].
      destruct (format_number distance) as [shown | e1]; simpl in Hraise.
      * right; split; [by exists shown |].
        destruct (format_number total) as [total_shown | e2]; simpl in Hraise;
          [discriminate | by injection Hraise as ->].
      * left; by injection Hraise as ->.
    + rewrite (drive_overflows_unchanged self distance e') by done; simpl.
      intros [= <-]; right; left; done.
  - intros o d e -> Ho Hd Hformat.
    rewrite (drive_adds self (Int d) (Int (o + d))).
    + simpl; by rewrite Hformat.
    + simpl; by apply Z.leb_gt.
    + by rewrite Ho.
Qed.

Lemma drive_raises_three_ways_witness :
  (forall I : Interpreter,
      stdout (drive (Float 1) (set_odometer (Int (2 ^ 1024)) (Scenario.ferrari "vin"))) = []
      /\ result (drive (Float 1) (set_odometer (Int (2 ^ 1024)) (Scenario.ferrari "vin")))
         = Raise (OverflowError "int too large to convert to float"))
  /\ (forall I : Interpreter,
      final (drive (Float 1) (set_odometer (Int (2 ^ 1024)) (Scenario.ferrari "vin")))
      = set_odometer (Int (2 ^ 1024)) (Scenario.ferrari "vin")).
Proof.
  assert (Hraise : forall I : Interpreter,
             result (drive (Float 1)
                       (set_odometer (Int (2 ^ 1024)) (Scenario.ferrari "vin")))
             = Raise (OverflowError "int too large to convert to float"))
    by (intros I; by vm_compute).
  split; intros I;
    destruct (drive_raises_three_ways
                (set_odometer (Int (2 ^ 1024)) (Scenario.ferrari "vin")) (Float 1))
      as (Hout & Hraises & _).
  - split; [exact Hout | exact (Hraise I)].
  - destruct (Hraises _ (Hraise I))
      as [(Hle & _) | [(_ & _ & Hfinal) | (total & _ & Hadd & _)]].
    + discriminate Hle.
    + exact Hfinal.
    + discriminate Hadd.
Defined.

(** At the default limit of 4300 digits the refusal is met by an int of
    4301 digits: [drive(10**4300)] and [ride(10**4300)] raise with the
    odometer assigned (and the speed of the ride raised by 60), and
    [increase_horse_power(10**4300)] raises with the horsepower
    increased. *)
Section default_limit.
Context `{Interpreter}.
Hypothesis default_limit : int_max_str_digits = 4300.

Lemma refused_at_the_default_limit (z : Z) :
  int_digits z = 4301 ->
  format_int z
  = Raise (ValueError ("Exceeds the limit (4300 digits) for integer string conversion; "
                         +:+ "use sys.set_int_max_str_digits() to increase the limit")).
Proof.
  intros Hdigits; rewrite format_int_refuses by (rewrite ?default_limit, ?Hdigits; lia).
  by rewrite default_limit.
Qed.

Lemma drive_beyond_the_default_limit :
  drive (Int (10 ^ 4300)) (Scenario.ferrari "vin")
  = Run (Raise (ValueError ("Exceeds the limit (4300 digits) for integer string "
                              +:+ "conversion; use sys.set_int_max_str_digits() to "
                              +:+ "increase the limit")))
        (set_odometer (Int (10 ^ 4300)) (Scenario.ferrari "vin")) [].
Proof.
  assert (Hdigits : int_digits (10 ^ 4300) = 4301) by (by vm_compute).
  assert (Hpos : 0 < 10 ^ 4300) by (by apply Z.pow_pos_nonneg).
  apply refused_at_the_default_limit in Hdigits.
  remember (10 ^ 4300) as big eqn:Hbig; clear Hbig.
  rewrite (drive_adds (Scenario.ferrari "vin") (Int big) (Int big)).
  - cbn [format_number outcome_bind]; by rewrite Hdigits.
  - cbn [le0]; by apply Z.leb_gt.
  - reflexivity.
Qed.

Lemma ride_beyond_the_default_limit :
  Motorcycle.ride (Int (10 ^ 4300)) (Scenario.yamaha "vin")
  = Run (Raise (ValueError ("Exceeds the limit (4300 digits) for integer string "
                              +:+ "conversion; use sys.set_int_max_str_digits() to "
                              +:+ "increase the limit")))
        (set_odometer (Int (10 ^ 4300)) (set_speed 60 (Scenario.yamaha "vin"))) [].
Proof.
  assert (Hdigits : int_digits (10 ^ 4300) = 4301) by (by vm_compute).
  assert (Hpos : 0 < 10 ^ 4300) by (by apply Z.pow_pos_nonneg).
  apply refused_at_the_default_limit in Hdigits.
  remember (10 ^ 4300) as big eqn:Hbig; clear Hbig.
  rewrite (ride_rides (Scenario.yamaha "vin") (Int big) (Int big)).
  - cbn [format_number outcome_bind]; by rewrite Hdigits.
  - cbn [le0]; by apply Z.leb_gt.
  - reflexivity.
Qed.

End default_limit.

Lemma add_nan_is_nan (g : float) : Prim2SF (g + nan)%float = S754_nan.
Proof. rewrite add_spec; unfold SF64add, SFadd; by destruct (Prim2SF g) as [| [] | |]. Qed.

(** A NaN distance is not refused: [nan <= 0] is false, so [drive(nan)]
    returns, and it leaves a NaN on the odometer, whatever double the
    odometer held (or whatever int that converts to a double). *)
Lemma drive_nan_is_accepted `{Interpreter} {A : Type} (self : object A) (g : float) :
  odometer self = Float g
  \/ (exists o, odometer self = Int o /\ float_of_int o = Return g) ->
  drive (Float nan) self
  = Run (Return (str self +:+ " drove " +:+ float_repr nan +:+ " km. Total: "
                   +:+ float_repr (g + nan) +:+ " km"))
        (set_odometer (Float (g + nan)) self) []
  /\ Prim2SF (g + nan)%float = S754_nan.
Proof.
  intros Hodo; split; [| apply add_nan_is_nan].
  apply (drive_adds self (Float nan) (Float (g + nan))); [reflexivity |].
  destruct Hodo as [-> | (o & -> & Hconv)]; simpl; [done | by rewrite Hconv].
Qed.

Lemma drive_nan_is_accepted_witness :
  (odometer (Scenario.ferrari "vin") = Float 0
   \/ exists o, odometer (Scenario.ferrari "vin") = Int o /\ float_of_int o = Return 0%float)
  /\ forall I : Interpreter,
      result (drive (Float nan) (Scenario.ferrari "vin"))
      = Return ("2020 Ferrari 488 GTB (petrol) drove " +:+ float_repr nan
                  +:+ " km. Total: " +:+ float_repr (0 + nan) +:+ " km").
Proof.
  assert (Hodo : odometer (Scenario.ferrari "vin") = Float 0
                 \/ exists o, odometer (Scenario.ferrari "vin") = Int o
                              /\ float_of_int o = Return 0%float)
    by (right; exists 0; split; reflexivity).
  split; [exact Hodo |].
  intros I.
  destruct (drive_nan_is_accepted (Scenario.ferrari "vin") 0 Hodo) as [Hrun _].
  by rewrite Hrun.
Defined.

(** ** Motorcycle, over several rides *)

Lemma ride_int_rides `{Interpreter} (m : Motorcycle.t) (o km : Z) :
  odometer m = Int o -> 0 < km ->
  final (Motorcycle.ride (Int km) m)
  = set_odometer (Int (o + km)) (set_speed (speed m + 60) m).
Proof.
  intros Ho Hkm.
  rewrite (ride_rides m (Int km) (Int (o + km))); [done | |].
  - simpl; by apply Z.leb_gt.
  - by rewrite Ho.
Qed.

(** [ride] never brakes: after [ride(km)] for each positive int [km] of
    [kms], the speed has grown by 60 for every ride and an int odometer
    [o] reads [o] plus the sum of [kms]; nothing else has changed. *)
Lemma rides_add_up `{Interpreter} (kms : list Z) (m : Motorcycle.t) (o : Z) :
  odometer m = Int o ->
  Forall (fun km => 0 < km) kms ->
  speed (Tour.rides kms m) = speed m + 60 * Z.of_nat (length kms)
  /\ odometer (Tour.rides kms m) = Int (o + fold_right Z.add 0 kms)
  /\ vehicle (Tour.rides kms m) = vehicle m
  /\ own (Tour.rides kms m) = own m.
Proof.
  revert m o; induction kms as [| km kms IH]; intros m o Ho Hkms.
  - simpl; rewrite Ho, Z.add_0_r, Z.add_0_r; done.
  - inversion Hkms as [| ? ? Hkm Hkms']; subst.
    cbn [Tour.rides]; rewrite (ride_int_rides m o km) by done.
    destruct (IH (set_odometer (Int (o + km)) (set_speed (speed m + 60) m)) (o + km))
      as (Hspeed & Hodo & Hveh & Hown); [done | done |].
    rewrite Hspeed, Hodo, Hveh, Hown; repeat split.
    + cbn [length]; rewrite Nat2Z.inj_succ.
      cbv [speed set_odometer set_speed movement _speed]; lia.
    + simpl; f_equal; lia.
Qed.

Lemma rides_add_up_witness :
  (odometer (Scenario.yamaha "vin") = Int 0 /\ Forall (fun km => 0 < km) [100; 50; 25])
  /\ forall I : Interpreter,
      speed (Tour.rides [100; 50; 25] (Scenario.yamaha "vin"))
      = speed (Scenario.yamaha "vin") + 60 * Z.of_nat (length [100; 50; 25])
      /\ odometer (Tour.rides [100; 50; 25] (Scenario.yamaha "vin"))
         = Int (0 + fold_right Z.add 0 [100; 50; 25]).
Proof.
  assert (Hhyps : odometer (Scenario.yamaha "vin") = Int 0
                  /\ Forall (fun km => 0 < km) [100; 50; 25])
    by (split; [reflexivity | repeat constructor]).
  split; [exact Hhyps |].
  intros I; destruct Hhyps as [Ho Hkms].
  destruct (rides_add_up [100; 50; 25] (Scenario.yamaha "vin") 0 Ho Hkms)
    as (Hspeed & Hodo & _).
  by split.
Defined.

(** [ride] is not all-or-nothing: when the odometer is an int too large
    for a double and the distance is a positive double, [drive] raises
    [OverflowError] after [accelerate(60)] has run, so the ride fails with
    the speed 60 higher and the odometer as it was. *)
Lemma ride_overflow_keeps_the_acceleration `{Interpreter}
    (m : Motorcycle.t) (o : Z) (f : float) (e : exn) :
  odometer m = Int o ->
  float_of_int o = Raise e ->
  (f <=? 0)%float = false ->
  Motorcycle.ride (Float f) m = Run (Raise e) (set_speed (speed m + 60) m) [].
Proof.
  intros Ho Hconv Hf.
  assert (Hdrive : drive (Float f) (set_speed (speed m + 60) m)
                   = Run (Raise e) (set_speed (speed m + 60) m) []).
  { unfold drive; change (le0 (Float f)) with (f <=? 0)%float; rewrite Hf.
    run_method.
    change (odometer (set_speed (speed m + 60) m)) with (odometer m).
    rewrite Ho; simpl; rewrite Hconv; reflexivity. }
  unfold Motorcycle.ride; change (le0 (Float f)) with (f <=? 0)%float; rewrite Hf.
  unfold Py.bind; rewrite accelerate_adds by lia; simpl.
  rewrite Hdrive; reflexivity.
Qed.

Lemma ride_overflow_keeps_the_acceleration_witness :
  (odometer (set_odometer (Int (2 ^ 1024)) (Scenario.yamaha "vin")) = Int (2 ^ 1024)
   /\ float_of_int (2 ^ 1024) = Raise (OverflowError "int too large to convert to float")
   /\ (1 <=? 0)%float = false)
  /\ forall I : Interpreter,
      Motorcycle.ride (Float 1) (set_odometer (Int (2 ^ 1024)) (Scenario.yamaha "vin"))
      = Run (Raise (OverflowError "int too large to convert to float"))
            (set_speed (speed (set_odometer (Int (2 ^ 1024)) (Scenario.yamaha "vin")) + 60)
               (set_odometer (Int (2 ^ 1024)) (Scenario.yamaha "vin"))) [].
Proof.
  assert (Hhyps : odometer (set_odometer (Int (2 ^ 1024)) (Scenario.yamaha "vin"))
                  = Int (2 ^ 1024)
                  /\ float_of_int (2 ^ 1024)
                     = Raise (OverflowError "int too large to convert to float")
                  /\ (1 <=? 0)%float = false)
    by (repeat split; by vm_compute).
  split; [exact Hhyps |].
  intros I; destruct Hhyps as (Ho & Hconv & Hf).
  exact (ride_overflow_keeps_the_acceleration
           (set_odometer (Int (2 ^ 1024)) (Scenario.yamaha "vin")) (2 ^ 1024) 1
           (OverflowError "int too large to convert to float") Ho Hconv Hf).
Defined.

(** ** Bus: the roster *)

Lemma list_remove_first (x : string) (l : list string) :
  x ∈ l ->
  exists l1 l2, l = l1 ++ x :: l2 /\ (x ∉ l1) /\ Bus.list_remove x l = l1 ++ l2.
Proof.
  induction l as [| y l IH]; intros Hin; [by apply elem_of_nil in Hin |].
  simpl; destruct (bool_decide (y = x)) eqn:Hyx; tests_to_props.
  - subst y; exists [], l; repeat split; [apply not_elem_of_nil].
  - apply elem_of_cons in Hin as [-> | Hin]; [done |].
    destruct (IH Hin) as (l1 & l2 & -> & Hnot & ->).
    exists (y :: l1), l2; repeat split.
    rewrite not_elem_of_cons; split; [congruence | done].
Qed.

Lemma list_remove_last (x : string) (l : list string) :
  (x ∉ l -> Bus.list_remove x (l ++ [x]) = l)
  /\ (x ∈ l -> Bus.list_remove x (l ++ [x]) = Bus.list_remove x l ++ [x]).
Proof.
  induction l as [| y l [IHout IHin]]; simpl.
  - rewrite bool_decide_eq_true_2 by done.
    split; [done | intros Hin; by apply elem_of_nil in Hin].
  - destruct (bool_decide (y = x)) eqn:Hyx; tests_to_props.
    + subst y; split; [intros Hnot; exfalso; apply Hnot; left | done].
    + split.
      * intros Hnot; rewrite IHout; [done |].
        intros Hin; apply Hnot; by right.
      * intros Hin; apply elem_of_cons in Hin as [-> | Hin]; [done |].
        by rewrite IHin.
Qed.

Lemma remove_passenger_absent (self : Bus.t) (name : string) :
  name ∉ Bus._passengers (own self) ->
  Bus.remove_passenger name self
  = Run (Return (name +:+ " არ არის ამ ავტობუსში")) self [].
Proof.
  intros Hin; unfold Bus.remove_passenger, str_in; run_method.
  by rewrite bool_decide_eq_false_2.
Qed.

Lemma remove_passenger_present (self : Bus.t) (name : string) :
  name ∈ Bus._passengers (own self) ->
  exists before behind,
    Bus._passengers (own self) = before ++ name :: behind
    /\ (name ∉ before)
    /\ Bus.remove_passenger name self
       = Run (Return (name +:+ " ჩამოვიდა ავტობუსიდან"))
             (set_own (Bus.set_passengers (before ++ behind) (own self)) self) [].
Proof.
  intros Hin; unfold Bus.remove_passenger, str_in; run_method.
  rewrite bool_decide_eq_true_2 by done; simpl.
  destruct (list_remove_first name _ Hin) as (before & behind & Heq & Hnot & ->).
  by exists before, behind.
Qed.

(** [remove_passenger(name)] takes out one passenger, the first of that
    name: when nobody of that name is aboard it changes nothing and
    returns the "is not on this bus" sentence; otherwise it removes the
    first occurrence of the name, keeps every other passenger in place
    (later passengers of the same name included) and returns the "got off"
    sentence.  It never raises. *)
Theorem remove_passenger_takes_the_first (self : Bus.t) (name : string) :
  (name ∉ Bus._passengers (own self) ->
     Bus.remove_passenger name self
     = Run (Return (name +:+ " არ არის ამ ავტობუსში")) self [])
  /\ (name ∈ Bus._passengers (own self) ->
      exists before behind,
        Bus._passengers (own self) = before ++ name :: behind
        /\ (name ∉ before)
        /\ Bus.remove_passenger name self
           = Run (Return (name +:+ " ჩამოვიდა ავტობუსიდან"))
                 (set_own (Bus.set_passengers (before ++ behind) (own self)) self) []).
Proof. split; [apply remove_passenger_absent | apply remove_passenger_present]. Qed.

Lemma remove_passenger_takes_the_first_witness :
  "Luka" ∈ Bus._passengers (own (Scenario.lion "vin" 50 ["Giorgi"; "Luka"; "Nino"; "Luka"]))
  /\ exists before behind,
       Bus._passengers (own (Scenario.lion "vin" 50 ["Giorgi"; "Luka"; "Nino"; "Luka"]))
       = before ++ "Luka" :: behind
       /\ ("Luka" ∉ before)
       /\ Bus.remove_passenger "Luka"
            (Scenario.lion "vin" 50 ["Giorgi"; "Luka"; "Nino"; "Luka"])
          = Run (Return ("Luka" +:+ " ჩამოვიდა ავტობუსიდან"))
                (set_own (Bus.set_passengers (before ++ behind)
                            (own (Scenario.lion "vin" 50
                                    ["Giorgi"; "Luka"; "Nino"; "Luka"])))
                   (Scenario.lion "vin" 50 ["Giorgi"; "Luka"; "Nino"; "Luka"])) [].
Proof.
  assert (Hin : "Luka" ∈ Bus._passengers
                  (own (Scenario.lion "vin" 50 ["Giorgi"; "Luka"; "Nino"; "Luka"])))
    by compute_done.
  split; [exact Hin |].
  exact (proj2 (remove_passenger_takes_the_first
                  (Scenario.lion "vin" 50 ["Giorgi"; "Luka"; "Nino"; "Luka"]) "Luka") Hin).
Defined.

(** Boarding and getting off undo each other only for a new name: on a
    bus with room, [add_passenger(name)] then [remove_passenger(name)]
    gives back the very same bus when nobody of that name was aboard; when
    somebody was, it is the earlier passenger who leaves and the new one
    who stays, at the end of the roster. *)
Theorem add_then_remove_passenger (self : Bus.t) (name : string) :
  Z.of_nat (length (Bus._passengers (own self))) < Bus.__capacity (own self) ->
  (name ∉ Bus._passengers (own self) ->
     final (Bus.remove_passenger name (final (Bus.add_passenger name self))) = self)
  /\ (name ∈ Bus._passengers (own self) ->
      final (Bus.remove_passenger name (final (Bus.add_passenger name self)))
      = set_own (Bus.set_passengers
                   (Bus.list_remove name (Bus._passengers (own self)) ++ [name])
                   (own self)) self).
Proof.
  intros Hroom.
  rewrite add_passenger_boards by done.
  destruct self as [base mv [color capacity engine roster]]; simpl in *.
  unfold Bus.remove_passenger, str_in; run_method.
  rewrite bool_decide_eq_true_2 by (apply elem_of_app; right; by left); simpl.
  destruct (list_remove_last name roster) as [Hout Hin].
  unfold set_own, Bus.set_passengers; simpl.
  split; intros Hname; [by rewrite Hout | by rewrite Hin].
Qed.

Lemma add_then_remove_passenger_witness :
  Z.of_nat (length (Bus._passengers (own (Scenario.lion "vin" 50 ["Luka"; "Giorgi"]))))
  < Bus.__capacity (own (Scenario.lion "vin" 50 ["Luka"; "Giorgi"]))
  /\ final (Bus.remove_passenger "Nino"
              (final (Bus.add_passenger "Nino" (Scenario.lion "vin" 50 ["Luka"; "Giorgi"]))))
     = Scenario.lion "vin" 50 ["Luka"; "Giorgi"]
  /\ Bus._passengers
       (own (final (Bus.remove_passenger "Luka"
                      (final (Bus.add_passenger "Luka"
                                (Scenario.lion "vin" 50 ["Luka"; "Giorgi"]))))))
     = ["Giorgi"; "Luka"].
Proof.
  assert (Hroom : Z.of_nat (length (Bus._passengers
                                      (own (Scenario.lion "vin" 50 ["Luka"; "Giorgi"]))))
                  < Bus.__capacity (own (Scenario.lion "vin" 50 ["Luka"; "Giorgi"])))
    by (by vm_compute).
  split; [exact Hroom |].
  split.
  - apply (add_then_remove_passenger _ "Nino" Hroom); compute_done.
  - rewrite (proj2 (add_then_remove_passenger _ "Luka" Hroom)) by compute_done.
    reflexivity.
Defined.

(** A seat that is given up can be taken again: on a full bus
    [add_passenger] is refused, and once [remove_passenger] has taken out
    somebody who was aboard, the next [add_passenger] boards and the bus is
    full again. *)
Theorem removed_seat_is_free_again (self : Bus.t) (leaving boarding : string) :
  Bus.__capacity (own self) = Z.of_nat (length (Bus._passengers (own self))) ->
  leaving ∈ Bus._passengers (own self) ->
  Bus.add_passenger boarding self = Run (Return "ავტობუსი სავსეა!") self []
  /\ result (Bus.add_passenger boarding (final (Bus.remove_passenger leaving self)))
     = Return (boarding +:+ " ავიდა ავტობუსში")
  /\ Z.of_nat (length (Bus._passengers
                         (own (final (Bus.add_passenger boarding
                                        (final (Bus.remove_passenger leaving self)))))))
     = Bus.__capacity (own self).
Proof.
  intros Hfull Hin.
  split; [apply add_passenger_full; lia |].
  destruct (remove_passenger_present self leaving Hin)
    as (before & behind & Hroster & _ & ->); cbn [final].
  rewrite Hroster, length_app in Hfull; simpl in Hfull.
  rewrite add_passenger_boards by (simpl; rewrite length_app; lia); simpl.
  split; [done |].
  rewrite !length_app; simpl; lia.
Qed.

Lemma removed_seat_is_free_again_witness :
  (Bus.__capacity (own (Scenario.lion "vin" 2 ["Luka"; "Giorgi"]))
   = Z.of_nat (length (Bus._passengers (own (Scenario.lion "vin" 2 ["Luka"; "Giorgi"]))))
   /\ "Luka" ∈ Bus._passengers (own (Scenario.lion "vin" 2 ["Luka"; "Giorgi"])))
  /\ Bus.add_passenger "Nino" (Scenario.lion "vin" 2 ["Luka"; "Giorgi"])
     = Run (Return "ავტობუსი სავსეა!") (Scenario.lion "vin" 2 ["Luka"; "Giorgi"]) []
  /\ result (Bus.add_passenger "Nino"
               (final (Bus.remove_passenger "Luka"
                         (Scenario.lion "vin" 2 ["Luka"; "Giorgi"]))))
     = Return ("Nino" +:+ " ავიდა ავტობუსში").
Proof.
  assert (Hhyps : Bus.__capacity (own (Scenario.lion "vin" 2 ["Luka"; "Giorgi"]))
                  = Z.of_nat (length (Bus._passengers
                                        (own (Scenario.lion "vin" 2 ["Luka"; "Giorgi"]))))
                  /\ "Luka" ∈ Bus._passengers (own (Scenario.lion "vin" 2 ["Luka"; "Giorgi"])))
    by (split; [reflexivity | compute_done]).
  split; [exact Hhyps |].
  destruct Hhyps as [Hfull Hin].
  destruct (removed_seat_is_free_again _ "Luka" "Nino" Hfull Hin) as (Hrefused & Hboards & _).
  by split.
Defined.

(** ** Bus: colour, engine and identity *)

(** [change_color(new)] leaves the bus in colour [new] whatever it was:
    it repaints and says so when the colour differs, it changes nothing
    and says "already the same" when it does not; so a second call with
    the same colour is always the no-op. *)
Theorem change_color_settles (self : Bus.t) (new_color : string) :
  (new_color = Bus._color (own self) ->
     Bus.change_color new_color self = Run (Return "Color is already the same.") self [])
  /\ (new_color <> Bus._color (own self) ->
      Bus.change_color new_color self
      = Run (Return ("Color changed to " +:+ new_color +:+ "."))
            (set_own (Bus.set_color new_color (own self)) self) [])
  /\ Bus._color (own (final (Bus.change_color new_color self))) = new_color
  /\ Bus.change_color new_color (final (Bus.change_color new_color self))
     = Run (Return "Color is already the same.")
           (final (Bus.change_color new_color self)) [].
Proof.
  unfold Bus.change_color; run_method.
  destruct (bool_decide (new_color = Bus._color (own self))) eqn:Hsame; tests_to_props;
    simpl; repeat split; try done.
  - by rewrite bool_decide_eq_true_2.
  - by rewrite bool_decide_eq_true_2.
Qed.

Lemma change_color_settles_witness :
  Bus.change_color "Yellow" (Scenario.lion "vin" 50 [])
  = Run (Return "Color changed to Yellow.")
        (set_own (Bus.set_color "Yellow" (own (Scenario.lion "vin" 50 [])))
           (Scenario.lion "vin" 50 [])) []
  /\ Bus.change_color "Blue" (Scenario.lion "vin" 50 [])
     = Run (Return "Color is already the same.") (Scenario.lion "vin" 50 []) [].
Proof.
  split.
  - apply (change_color_settles (Scenario.lion "vin" 50 []) "Yellow"); discriminate.
  - apply (change_color_settles (Scenario.lion "vin" 50 []) "Blue"); reflexivity.
Defined.

(** [increase_horse_power] with a positive increment: the engine is
    rebound first, the message is formatted afterwards. *)
Lemma increase_horse_power_adds `{Interpreter} (self : Bus.t) (hp : Z) :
  0 < hp ->
  Bus.increase_horse_power hp self
  = Run (shown <-? format_int (Engine.horsepower (Bus._engine (own self)) + hp) ;;
         Return ("Horsepower increased to " +:+ shown +:+ "."))%py
        (set_own (Bus.set_engine
                    (Engine.new (Engine.horsepower (Bus._engine (own self)) + hp)
                       (Engine.engine_type (Bus._engine (own self))))
                    (own self)) self) [].
Proof.
  intros Hhp; unfold Bus.increase_horse_power.
  destruct (0 <? hp) eqn:Htest; tests_to_props; [| lia].
  run_method; formats; reflexivity.
Qed.

Lemma increase_horse_power_refuses `{Interpreter} (self : Bus.t) (hp : Z) :
  hp <= 0 ->
  Bus.increase_horse_power hp self = Run (Return "Invalid horsepower increment.") self [].
Proof.
  intros Hhp; unfold Bus.increase_horse_power.
  destruct (0 <? hp) eqn:Htest; tests_to_props; [lia | reflexivity].
Qed.

Lemma increase_horse_power_beyond_the_default_limit `{Interpreter} :
  int_max_str_digits = 4300 ->
  Bus.increase_horse_power (10 ^ 4300) (Scenario.lion "vin" 50 [])
  = Run (Raise (ValueError ("Exceeds the limit (4300 digits) for integer string "
                              +:+ "conversion; use sys.set_int_max_str_digits() to "
                              +:+ "increase the limit")))
        (set_own (Bus.set_engine (Engine.new (280 + 10 ^ 4300) "4-stroke")
                    (own (Scenario.lion "vin" 50 []))) (Scenario.lion "vin" 50 [])) [].
Proof.
  intros Hlimit.
  assert (Hdigits : int_digits (280 + 10 ^ 4300) = 4301) by (by vm_compute).
  assert (Hpos : 0 < 10 ^ 4300) by (by apply Z.pow_pos_nonneg).
  apply (refused_at_the_default_limit Hlimit) in Hdigits.
  remember (10 ^ 4300) as big eqn:Hbig; clear Hbig.
  rewrite increase_horse_power_adds by done.
  change (Engine.horsepower (Bus._engine (own (Scenario.lion "vin" 50 [])))) with 280.
  by rewrite Hdigits.
Qed.

Lemma perform_engine `{Interpreter} (c : Trip.call) (self : Bus.t) :
  Engine.horsepower (Bus._engine (own self))
  <= Engine.horsepower (Bus._engine (own (final (Trip.perform c self))))
  /\ Engine.engine_type (Bus._engine (own (final (Trip.perform c self))))
     = Engine.engine_type (Bus._engine (own self)).
Proof.
  destruct c as [v | | d | col | hp | n | n]; simpl.
  - unfold accelerate; destruct (v <=? 0); simpl; split; (lia || done).
  - split; (lia || done).
  - unfold drive; destruct (le0 d); run_method; [split; (lia || done) |].
    destruct (add (odometer self) d); simpl; formats; split; (lia || done).
  - unfold Bus.change_color; run_method.
    destruct (bool_decide (col = Bus._color (own self))); simpl; split; (lia || done).
  - destruct (Z_lt_dec 0 hp) as [Hhp | Hhp].
    + rewrite increase_horse_power_adds by done; simpl; split; (lia || done).
    + rewrite increase_horse_power_refuses by lia; simpl; split; (lia || done).
  - unfold Bus.add_passenger; run_method; destruct (_ <? _); simpl; split; (lia || done).
  - unfold Bus.remove_passenger; run_method; destruct (str_in _ _); simpl;
      split; (lia || done).
Qed.

(** The horsepower of a bus only grows.  [increase_horse_power(hp)] with
    [hp > 0] adds [hp] to the horsepower and then formats the new total
    for its message: it reports the total whenever the interpreter converts
    it to a string (an int of at most 640 digits, no limit set, or a total
    within the limit), and when the conversion is refused it raises the
    interpreter's [ValueError] with the horsepower already increased.  With
    [hp <= 0] it is refused, with nothing changed.  So after any calls on
    the bus the horsepower is at least what it was (a positive one stays
    positive) and the engine type is the same. *)
Theorem horsepower_only_grows :
  (forall (I : Interpreter) (self : Bus.t) (hp : Z),
      0 < hp ->
      let total := Engine.horsepower (Bus._engine (own self)) + hp in
      let grown :=
        set_own (Bus.set_engine
                   (Engine.new total (Engine.engine_type (Bus._engine (own self))))
                   (own self)) self in
      Bus.increase_horse_power hp self
      = Run (shown <-? format_int total ;;
             Return ("Horsepower increased to " +:+ shown +:+ "."))%py
            grown []
      /\ (int_digits total <= 640 \/ int_max_str_digits <= 0
          \/ int_digits total <= int_max_str_digits ->
          Bus.increase_horse_power hp self
          = Run (Return ("Horsepower increased to " +:+ str_int total +:+ "."))
                grown [])
      /\ (forall e,
            format_int total = Raise e ->
            Bus.increase_horse_power hp self = Run (Raise e) grown []))
  /\ (forall (I : Interpreter) (self : Bus.t) (hp : Z),
      hp <= 0 ->
      Bus.increase_horse_power hp self
      = Run (Return "Invalid horsepower increment.") self [])
  /\ (forall (I : Interpreter) (cs : list Trip.call) (self : Bus.t),
      Engine.horsepower (Bus._engine (own self))
      <= Engine.horsepower (Bus._engine (own (Trip.after cs self)))
      /\ Engine.engine_type (Bus._engine (own (Trip.after cs self)))
         = Engine.engine_type (Bus._engine (own self))).
Proof.
  split; [| split; [intros I; apply increase_horse_power_refuses |]].
  - intros I self hp Hhp total grown.
    assert (Hrun := increase_horse_power_adds self hp Hhp).
    fold total in Hrun; fold grown in Hrun.
    split; [exact Hrun | split].
    + intros Hshort; rewrite Hrun, (format_int_returns total Hshort); reflexivity.
    + intros e He; rewrite Hrun, He; reflexivity.
  - intros I cs; induction cs as [| c cs IH]; intros self; simpl; [split; (lia || done) |].
    destruct (IH (final (Trip.perform c self))) as [Hhp Hty].
    destruct (perform_engine c self) as [Hhp' Hty'].
    split; [lia | congruence].
Qed.

Lemma horsepower_only_grows_witness :
  (forall I : Interpreter,
      Bus.increase_horse_power 50 (Scenario.lion "vin" 50 [])
      = Run (Return ("Horsepower increased to " +:+ str_int (280 + 50) +:+ "."))
            (set_own (Bus.set_engine (Engine.new (280 + 50) "4-stroke")
                        (own (Scenario.lion "vin" 50 []))) (Scenario.lion "vin" 50 [])) [])
  /\ (forall I : Interpreter,
      Bus.increase_horse_power (-50) (Scenario.lion "vin" 50 [])
      = Run (Return "Invalid horsepower increment.") (Scenario.lion "vin" 50 []) []).
Proof.
  destruct horsepower_only_grows as (Hadds & Hrefuses & _).
  split; intros I.
  - assert (Hhp : 0 < 50) by lia.
    destruct (Hadds I (Scenario.lion "vin" 50 []) 50 Hhp) as (_ & Hshort & _).
    apply Hshort; left; by vm_compute.
  - apply (Hrefuses I (Scenario.lion "vin" 50 []) (-50)); lia.
Defined.

Lemma perform_keeps_vehicle `{Interpreter} (c : Trip.call) (self : Bus.t) :
  vehicle (final (Trip.perform c self)) = vehicle self.
Proof.
  destruct c as [v | | d | col | hp | n | n]; simpl.
  - unfold accelerate; destruct (v <=? 0); reflexivity.
  - reflexivity.
  - unfold drive; destruct (le0 d); run_method; [reflexivity |].
    destruct (add (odometer self) d); simpl; formats; reflexivity.
  - unfold Bus.change_color; run_method.
    destruct (bool_decide (col = Bus._color (own self))); reflexivity.
  - unfold Bus.increase_horse_power; destruct (0 <? hp); run_method; formats; reflexivity.
  - unfold Bus.add_passenger; run_method; destruct (_ <? _); reflexivity.
  - unfold Bus.remove_passenger; run_method; destruct (str_in _ _); reflexivity.
Qed.

(** What a bus is never changes: after any calls, failed ones included,
    its brand, model, year, fuel type and identifier are those it was
    built with, and so is its capacity. *)
Theorem Bus_identity_is_fixed `{Interpreter} (cs : list Trip.call) (self : Bus.t) :
  vehicle (Trip.after cs self) = vehicle self
  /\ Bus.__capacity (own (Trip.after cs self)) = Bus.__capacity (own self).
Proof.
  split; [| apply after_keeps_capacity].
  revert self; induction cs as [| c cs IH]; intros self; simpl; [reflexivity |].
  by rewrite IH, perform_keeps_vehicle.
Qed.

(** ** The production counters, in general *)

Lemma cars_nonneg (cs : list Production.construction) (ns : Classes.attributes) :
  0 <= Production.cars cs ns.
Proof.
  revert ns; induction cs as [| c cs IH]; intros ns; [simpl; lia |].
  cbn [Production.cars].
  specialize (IH (final (Production.construct c ns))).
  destruct c; [destruct (Production.constructed _ _) |]; lia.
Qed.

Lemma sports_cars_nonneg (cs : list Production.construction) (ns : Classes.attributes) :
  0 <= Production.sports_cars cs ns.
Proof.
  revert ns; induction cs as [| c cs IH]; intros ns; [simpl; lia |].
  cbn [Production.sports_cars].
  specialize (IH (final (Production.construct c ns))).
  destruct c; [| destruct (Production.constructed _ _)]; lia.
Qed.

(** [Car.model_produced] counts the plain cars and nothing else: after any
    constructor calls it has grown by the number of [Car(...)] calls that
    returned; calls that raised and sports cars leave it alone.  Counted
    from the loaded module it is the number of all cars built exactly when
    no sports car was built. *)
Theorem model_produced_counts_plain_cars
    (cs : list Production.construction) (ns : Classes.attributes) :
  Classes.getattr Classes.Car (Production.produce cs ns)
  = Classes.getattr Classes.Car ns + Production.cars cs ns
  /\ (Classes.getattr Classes.Car (Production.produce cs Classes.loaded)
      = Production.cars cs Classes.loaded + Production.sports_cars cs Classes.loaded
      <-> Production.sports_cars cs Classes.loaded = 0).
Proof.
  split; [apply Car_model_produced_counts_cars |].
  rewrite Car_model_produced_counts_cars; simpl.
  pose proof (sports_cars_nonneg cs Classes.loaded); lia.
Qed.

Lemma construct_sports_car (a : Car.args) (ns : Classes.attributes) :
  final (Production.construct (Production.NewSportsCar a) ns)
  = if Production.constructed (Production.NewSportsCar a) ns
    then Classes.setattr Classes.SportsCar
           (Classes.getattr Classes.SportsCar ns + 1) ns
    else ns.
Proof.
  unfold Production.constructed; simpl; unfold SportsCar.__init__, Py.bind.
  pose proof (Car_init_run Classes.SportsCar a ns) as Hrun.
  destruct (Vehicle.__init__ _ _ _ _ _ _); rewrite Hrun; reflexivity.
Qed.

Lemma construct_car_keeps_SportsCar (a : Car.args) (ns : Classes.attributes) :
  Classes.SportsCar_model_produced (final (Production.construct (Production.NewCar a) ns))
  = Classes.SportsCar_model_produced ns.
Proof.
  simpl; unfold Py.bind.
  pose proof (Car_init_run Classes.Car a ns) as Hrun.
  destruct (Vehicle.__init__ _ _ _ _ _ _); rewrite Hrun; reflexivity.
Qed.

Lemma produce_app (cs cs' : list Production.construction) (ns : Classes.attributes) :
  Production.produce (cs ++ cs') ns = Production.produce cs' (Production.produce cs ns).
Proof. revert ns; induction cs as [| c cs IH]; intros ns; simpl; [done | apply IH]. Qed.

(** Until a sports car is built, [SportsCar] has no binding of its own. *)
Lemma SportsCar_unbound_without_sports_cars
    (cs : list Production.construction) (ns : Classes.attributes) :
  Classes.SportsCar_model_produced ns = None ->
  Production.sports_cars cs ns = 0 ->
  Classes.SportsCar_model_produced (Production.produce cs ns) = None.
Proof.
  revert ns; induction cs as [| c cs IH]; intros ns Hnone Hzero; [done |].
  cbn [Production.produce Production.sports_cars] in *.
  pose proof (sports_cars_nonneg cs (final (Production.construct c ns))) as Hrest.
  apply IH; [| destruct c; [lia | destruct (Production.constructed _ _); lia]].
  destruct c as [a | a].
  - by rewrite construct_car_keeps_SportsCar.
  - rewrite construct_sports_car.
    destruct (Production.constructed _ _); [lia | done].
Qed.

(** Once [SportsCar] has its own binding, it counts the sports cars. *)
Lemma SportsCar_bound_counts_sports_cars
    (cs : list Production.construction) (ns : Classes.attributes) (v : Z) :
  Classes.SportsCar_model_produced ns = Some v ->
  Classes.getattr Classes.SportsCar (Production.produce cs ns)
  = v + Production.sports_cars cs ns.
Proof.
  revert ns v; induction cs as [| c cs IH]; intros ns v Hsome.
  - simpl; rewrite Hsome; lia.
  - cbn [Production.produce Production.sports_cars].
    destruct c as [a | a].
    + rewrite (IH _ v) by (by rewrite construct_car_keeps_SportsCar); lia.
    + rewrite construct_sports_car.
      destruct (Production.constructed _ _) eqn:Hbuilt.
      * rewrite (IH _ (v + 1)) by (simpl; by rewrite Hsome); lia.
      * rewrite (IH _ v) by done; lia.
Qed.

(** [SportsCar.model_produced] is no count of sports cars: the first
    sports car built copies the count of plain cars built so far, plus
    one, into a binding of [SportsCar]'s own; from then on that binding
    grows by one per sports car and ignores the plain cars. *)
Theorem SportsCar_model_produced_starts_from_Car
    (before rest : list Production.construction) (a : Car.args) :
  Production.sports_cars before Classes.loaded = 0 ->
  Production.constructed (Production.NewSportsCar a)
    (Production.produce before Classes.loaded) = true ->
  Classes.getattr Classes.SportsCar
    (Production.produce (before ++ Production.NewSportsCar a :: rest) Classes.loaded)
  = Production.cars before Classes.loaded + 1
    + Production.sports_cars rest
        (Production.produce (before ++ [Production.NewSportsCar a]) Classes.loaded).
Proof.
  intros Hnone Hbuilt.
  change (before ++ Production.NewSportsCar a :: rest)
    with (before ++ [Production.NewSportsCar a] ++ rest).
  rewrite app_assoc, (produce_app (before ++ _) rest), (produce_app before).
  pose proof (SportsCar_unbound_without_sports_cars before Classes.loaded eq_refl Hnone)
    as Hunbound.
  pose proof (Car_model_produced_counts_cars before Classes.loaded) as Hcars.
  simpl in Hcars.
  apply SportsCar_bound_counts_sports_cars.
  cbn [Production.produce]; rewrite construct_sports_car, Hbuilt; simpl.
  rewrite Hunbound; f_equal; lia.
Qed.

Lemma SportsCar_model_produced_starts_from_Car_witness :
  (Production.sports_cars
     [Production.NewCar (Scenario.car1 2026 "a"); Production.NewCar (Scenario.car2 2026 "b")]
     Classes.loaded = 0
   /\ Production.constructed (Production.NewSportsCar (Scenario.sport1 2026 "c"))
        (Production.produce
           [Production.NewCar (Scenario.car1 2026 "a");
            Production.NewCar (Scenario.car2 2026 "b")] Classes.loaded) = true)
  /\ Classes.getattr Classes.SportsCar
       (Production.produce
          ([Production.NewCar (Scenario.car1 2026 "a");
            Production.NewCar (Scenario.car2 2026 "b")]
             ++ Production.NewSportsCar (Scenario.sport1 2026 "c")
             :: [Production.NewSportsCar (Scenario.sport1 2026 "d")])
          Classes.loaded)
     = 2 + 1 + 1.
Proof.
  assert (Hhyps :
            Production.sports_cars
              [Production.NewCar (Scenario.car1 2026 "a");
               Production.NewCar (Scenario.car2 2026 "b")] Classes.loaded = 0
            /\ Production.constructed (Production.NewSportsCar (Scenario.sport1 2026 "c"))
                 (Production.produce
                    [Production.NewCar (Scenario.car1 2026 "a");
                     Production.NewCar (Scenario.car2 2026 "b")] Classes.loaded) = true)
    by (split; by vm_compute).
  split; [exact Hhyps |].
  destruct Hhyps as [Hnone Hbuilt].
  rewrite (SportsCar_model_produced_starts_from_Car _ _ _ Hnone Hbuilt).
  by vm_compute.
Defined.

(** ** What construction guarantees *)

Lemma Vehicle_init_returns_valid
    (current_year : Z) (uuid4 brand model : string) (year : Z) (fuel_type : string)
    (v : Vehicle.t) :
  Vehicle.__init__ current_year uuid4 brand model year fuel_type = Return v ->
  brand <> "" /\ model <> "" /\ 1900 <= year <= current_year
  /\ fuel_type ∈ Vehicle.valid
  /\ v = Vehicle.new brand model year fuel_type uuid4.
Proof.
  intros Hinit.
  destruct (Vehicle_init_cases current_year uuid4 brand model year fuel_type)
    as (Hbrand & Hmodel & Hyear & Hfuel).
  destruct (decide (brand = "")) as [Hb | Hb]; [rewrite Hbrand in Hinit by done; done |].
  destruct (decide (model = "")) as [Hm | Hm]; [rewrite Hmodel in Hinit by done; done |].
  destruct (decide (1900 <= year <= current_year)) as [Hy | Hy];
    [| rewrite Hyear in Hinit by done; done].
  destruct (decide (fuel_type ∈ Vehicle.valid)) as [Hf | Hf];
    [| rewrite Hfuel in Hinit by done; done].
  rewrite Vehicle_init_passes in Hinit by done.
  injection Hinit as <-; done.
Qed.

(** Every vehicle that exists is a valid one: a constructor of any of the
    four classes returns only when the brand and the model are not empty,
    the year is between 1900 and the current year and the fuel type is one
    of the three; the instance then holds exactly the arguments and the
    identifier drawn, and stands still with the odometer at 0. *)
Theorem constructed_vehicles_are_valid
    (current_year : Z) (uuid4 brand model : string) (year : Z) (fuel_type : string) :
  (forall (engine : Engine.t) (has_sidecar : bool) (m : Motorcycle.t),
      Motorcycle.__init__ current_year uuid4 brand model year fuel_type engine has_sidecar
      = Return m ->
      (brand <> "" /\ model <> "" /\ 1900 <= year <= current_year
       /\ fuel_type ∈ Vehicle.valid)
      /\ m = Object (Vehicle.new brand model year fuel_type uuid4) vehicleMixin.__init__
               (Motorcycle.new engine has_sidecar true))
  /\ (forall (color : string) (capacity : Z) (engine : Engine.t) (b : Bus.t),
      Bus.__init__ current_year uuid4 brand model year fuel_type color capacity engine
      = Return b ->
      (brand <> "" /\ model <> "" /\ 1900 <= year <= current_year
       /\ fuel_type ∈ Vehicle.valid)
      /\ b = Object (Vehicle.new brand model year fuel_type uuid4) vehicleMixin.__init__
               (Bus.new color capacity engine []))
  /\ (forall (cls : Classes.name) (engine : Engine.t) (color : string) (num_doors : Z)
             (license_plate : string) (ns : Classes.attributes) (c : Car.t),
      result (Car.__init__ cls
                (Car.Args current_year uuid4 brand model year fuel_type engine color
                   num_doors license_plate) ns)
      = Return c ->
      (brand <> "" /\ model <> "" /\ 1900 <= year <= current_year
       /\ fuel_type ∈ Vehicle.valid)
      /\ c = Object (Vehicle.new brand model year fuel_type uuid4) vehicleMixin.__init__
               (Car.new engine color num_doors license_plate))
  /\ (forall (engine : Engine.t) (color : string) (num_doors : Z)
             (license_plate : string) (ns : Classes.attributes) (s : SportsCar.t),
      result (SportsCar.__init__
                (Car.Args current_year uuid4 brand model year fuel_type engine color
                   num_doors license_plate) ns)
      = Return s ->
      (brand <> "" /\ model <> "" /\ 1900 <= year <= current_year
       /\ fuel_type ∈ Vehicle.valid)
      /\ s = Object (Vehicle.new brand model year fuel_type uuid4) vehicleMixin.__init__
               (SportsCar.new (Car.new engine color num_doors license_plate)
                  false 1 None)).
Proof.
  pose proof (Vehicle_init_returns_valid current_year uuid4 brand model year fuel_type)
    as Hvalid.
  split; [| split; [| split]].
  - intros engine has_sidecar m; unfold Motorcycle.__init__.
    destruct (Vehicle.__init__ _ _ _ _ _ _) as [base |]; simpl; [| discriminate].
    destruct (Hvalid base eq_refl) as (? & ? & ? & ? & ->); by intros [= <-].
  - intros color capacity engine b; unfold Bus.__init__.
    destruct (Vehicle.__init__ _ _ _ _ _ _) as [base |]; simpl; [| discriminate].
    destruct (Hvalid base eq_refl) as (? & ? & ? & ? & ->); by intros [= <-].
  - intros cls engine color num_doors license_plate ns c.
    unfold Car.__init__; run_method.
    destruct (Vehicle.__init__ _ _ _ _ _ _) as [base |]; simpl; [| discriminate].
    destruct (Hvalid base eq_refl) as (? & ? & ? & ? & ->); by intros [= <-].
  - intros engine color num_doors license_plate ns s.
    unfold SportsCar.__init__, Car.__init__; run_method.
    destruct (Vehicle.__init__ _ _ _ _ _ _) as [base |]; simpl; [| discriminate].
    destruct (Hvalid base eq_refl) as (? & ? & ? & ? & ->); by intros [= <-].
Qed.

Lemma constructed_vehicles_are_valid_witness :
  Bus.__init__ 2026 "vin" "MAN" "Lion's City" 2017 "diesel" "Blue" 50
    (Engine.new 280 "4-stroke")
  = Return (Scenario.lion "vin" 50 [])
  /\ ("MAN" <> "" /\ "Lion's City" <> "" /\ 1900 <= 2017 <= 2026
      /\ "diesel" ∈ Vehicle.valid).
Proof.
  assert (Hinit : Bus.__init__ 2026 "vin" "MAN" "Lion's City" 2017 "diesel" "Blue" 50
                    (Engine.new 280 "4-stroke")
                  = Return (Scenario.lion "vin" 50 []))
    by reflexivity.
  split; [exact Hinit |].
  destruct (constructed_vehicles_are_valid 2026 "vin" "MAN" "Lion's City" 2017 "diesel")
    as (_ & Hbus & _).
  exact (proj1 (Hbus "Blue" 50 (Engine.new 280 "4-stroke") _ Hinit)).
Defined.

(** ** SportsCar: spoiler, gear and identity *)

(** [set_spoiler(kind)] accepts exactly "lip", "wing" and "active", as
    written: for one of them it sets the spoiler, which [spoiler] then
    reads back, prints the notification and touches nothing else; for any
    other string it raises its [ValueError]. *)
Theorem set_spoiler_accepts_three `{Interpreter} (self : SportsCar.t) (kind : string) :
  (kind = "lip" \/ kind = "wing" \/ kind = "active" ->
     SportsCar.set_spoiler kind self
     = Run (Return tt)
           (set_own (SportsCar.set_spoiler_attr (Some kind) (own self)) self)
           ["Spoiler set to: " +:+ kind]
     /\ SportsCar.spoiler (final (SportsCar.set_spoiler kind self)) = Some kind)
  /\ (~ (kind = "lip" \/ kind = "wing" \/ kind = "active") ->
      SportsCar.set_spoiler kind self
      = Run (Raise (ValueError ("Invalid spoiler. Choose from: "
                                  +:+ str_set SportsCar.spoiler_types))) self [])
  /\ ((exists e, result (SportsCar.set_spoiler kind self) = Raise e)
      <-> ~ (kind = "lip" \/ kind = "wing" \/ kind = "active")).
Proof.
  rewrite <- spoiler_types_members.
  split; [| split].
  - intros Hin; by rewrite set_spoiler_sets.
  - apply set_spoiler_raises_unchanged.
  - split.
    + intros [e He] Hin; rewrite set_spoiler_sets in He by done; discriminate.
    + intros Hout; rewrite set_spoiler_raises_unchanged by done; eauto.
Qed.

Lemma set_spoiler_accepts_three_witness :
  (forall I : Interpreter,
      SportsCar.spoiler (final (SportsCar.set_spoiler "wing" (Scenario.ferrari "vin")))
      = Some "wing")
  /\ (forall I : Interpreter,
      result (SportsCar.set_spoiler "Wing" (Scenario.ferrari "vin"))
      = Raise (ValueError ("Invalid spoiler. Choose from: "
                             +:+ str_set SportsCar.spoiler_types))).
Proof.
  split; intros I.
  - destruct (set_spoiler_accepts_three (Scenario.ferrari "vin") "wing") as (Hsets & _ & _).
    apply Hsets; right; by left.
  - destruct (set_spoiler_accepts_three (Scenario.ferrari "vin") "Wing")
      as (_ & Hraises & _).
    rewrite Hraises; [done |].
    intros [Heq | [Heq | Heq]]; discriminate.
Defined.

Lemma Session_perform_cases `{Interpreter} (c : Session.call) (self : SportsCar.t) :
  vehicle (final (Session.perform c self)) = vehicle self
  /\ Car._engine (SportsCar.car (own (final (Session.perform c self))))
     = Car._engine (SportsCar.car (own self))
  /\ Car._color (SportsCar.car (own (final (Session.perform c self))))
     = Car._color (SportsCar.car (own self))
  /\ Car._num_doors (SportsCar.car (own (final (Session.perform c self))))
     = Car._num_doors (SportsCar.car (own self))
  /\ (SportsCar._gear (own (final (Session.perform c self))) = SportsCar._gear (own self)
      \/ exists g, c = Session.ShiftGear g /\ 1 <= g <= 6
                   /\ SportsCar._gear (own (final (Session.perform c self))) = g)
  /\ (SportsCar._spoiler (own (final (Session.perform c self)))
      = SportsCar._spoiler (own self)
      \/ exists k, c = Session.SetSpoiler k /\ k ∈ SportsCar.spoiler_types
                   /\ SportsCar._spoiler (own (final (Session.perform c self))) = Some k).
Proof.
  destruct c as [m | | | g | k | p]; cbn [Session.perform].
  - destruct (Journey_perform_frame m self) as [Hvehicle Hown].
    split; [exact Hvehicle |].
    change (own (final (Journey.perform m self))) with
      (own (final (@Journey.perform H SportsCar.attrs m self))) in *.
    repeat split; try left; exact (f_equal _ Hown) || by (f_equal; exact (f_equal _ Hown)).
  - simpl; repeat split; by left.
  - simpl; repeat split; by left.
  - destruct (decide (1 <= g <= 6)) as [Hg | Hg].
    + rewrite shift_gear_sets by done; simpl; repeat split; [right; by exists g | by left].
    + rewrite shift_gear_raises_unchanged by lia; simpl; repeat split; by left.
  - destruct (decide (k ∈ SportsCar.spoiler_types)) as [Hk | Hk].
    + rewrite set_spoiler_sets by done; simpl; repeat split; [by left | right; by exists k].
    + rewrite set_spoiler_raises_unchanged by done; simpl; repeat split; by left.
  - simpl; repeat split; by left.
Qed.

(** The gear and the spoiler of a sports car stay within their ranges:
    after any calls, failed ones included, on a sports car whose gear is
    in 1..6 and whose spoiler is unset or one of the three kinds (as
    [SportsCar(...)] returns it), the gear is in 1..6 and the spoiler is
    unset or one of the three kinds. *)
Theorem sports_car_stays_in_range `{Interpreter} (cs : list Session.call) (self : SportsCar.t) :
  1 <= SportsCar._gear (own self) <= 6 ->
  (forall k, SportsCar._spoiler (own self) = Some k -> k ∈ SportsCar.spoiler_types) ->
  1 <= SportsCar._gear (own (Session.after cs self)) <= 6
  /\ (forall k, SportsCar._spoiler (own (Session.after cs self)) = Some k ->
                k ∈ SportsCar.spoiler_types).
Proof.
  revert self; induction cs as [| c cs IH]; intros self Hgear Hspoiler; [done |].
  cbn [Session.after]; apply IH.
  - destruct (Session_perform_cases c self)
      as (_ & _ & _ & _ & [-> | (g & _ & Hg & ->)] & _); done.
  - destruct (Session_perform_cases c self)
      as (_ & _ & _ & _ & _ & [-> | (k' & _ & Hk & ->)]); [done |].
    by intros k [= <-].
Qed.

Lemma sports_car_stays_in_range_witness :
  (1 <= SportsCar._gear (own (Scenario.ferrari "vin")) <= 6
   /\ forall k, SportsCar._spoiler (own (Scenario.ferrari "vin")) = Some k ->
                k ∈ SportsCar.spoiler_types)
  /\ forall I : Interpreter,
      1 <= SportsCar._gear
             (own (Session.after
                     [Session.ShiftGear 4; Session.ShiftGear 9; Session.SetSpoiler "wing";
                      Session.SetSpoiler "ducktail"; Session.EnableTurbo]
                     (Scenario.ferrari "vin"))) <= 6.
Proof.
  assert (Hhyps : 1 <= SportsCar._gear (own (Scenario.ferrari "vin")) <= 6
                  /\ forall k, SportsCar._spoiler (own (Scenario.ferrari "vin")) = Some k ->
                               k ∈ SportsCar.spoiler_types)
    by (split; [simpl; lia | intros k; discriminate]).
  split; [exact Hhyps |].
  intros I; destruct Hhyps as [Hgear Hspoiler].
  exact (proj1 (sports_car_stays_in_range _ _ Hgear Hspoiler)).
Defined.

(** What a sports car is never changes: after any calls, its brand, model,
    year, fuel type and identifier, its engine, colour and number of
    doors are those it was built with; of the attributes [Car.__init__]
    set, only the licence plate can change. *)
Theorem SportsCar_identity_is_fixed `{Interpreter}
    (cs : list Session.call) (self : SportsCar.t) :
  vehicle (Session.after cs self) = vehicle self
  /\ Car._engine (SportsCar.car (own (Session.after cs self)))
     = Car._engine (SportsCar.car (own self))
  /\ Car._color (SportsCar.car (own (Session.after cs self)))
     = Car._color (SportsCar.car (own self))
  /\ Car._num_doors (SportsCar.car (own (Session.after cs self)))
     = Car._num_doors (SportsCar.car (own self)).
Proof.
  revert self; induction cs as [| c cs IH]; intros self; [done |].
  cbn [Session.after].
  destruct (IH (final (Session.perform c self))) as (-> & -> & -> & ->).
  destruct (Session_perform_cases c self) as (-> & -> & -> & -> & _); done.
Qed.

(** ** main *)

Lemma bind_returns {S A B : Type} (m : M S A) (k : A -> M S B)
    (s s' : S) (a : A) (out : list string) :
  m s = Run (Return a) s' out ->
  Py.bind m k s = Run (result (k a s')) (final (k a s')) (out ++ stdout (k a s')).
Proof. unfold Py.bind; by intros ->. Qed.

Lemma bind_raises {S A B : Type} (m : M S A) (k : A -> M S B)
    (s s' : S) (e : exn) (out : list string) :
  m s = Run (Raise e) s' out ->
  Py.bind m k s = Run (Raise e) s' out.
Proof. unfold Py.bind; by intros ->. Qed.

(** A statement that returns, followed by a program that ends properly:
    the whole ends the same way. *)
Lemma bind_keeps_ending {S A B : Type} (m : M S A) (k : A -> M S B)
    (s s' : S) (a : A) (out : list string)
    (clean : string -> bool) (b : B) (s_end : S) (line : string) :
  m s = Run (Return a) s' out ->
  forallb clean out = true ->
  result (k a s') = Return b /\ final (k a s') = s_end
  /\ last (stdout (k a s')) = Some line /\ forallb clean (stdout (k a s')) = true ->
  result (Py.bind m k s) = Return b /\ final (Py.bind m k s) = s_end
  /\ last (stdout (Py.bind m k s)) = Some line
  /\ forallb clean (stdout (Py.bind m k s)) = true.
Proof.
  intros Hm Hout (Hres & Hfin & Hlast & Hclean).
  rewrite (bind_returns m k s s' a out Hm); simpl.
  repeat split; [done | done | | by rewrite forallb_app, Hout, Hclean].
  destruct (stdout (k a s')) as [| l rest] eqn:Hrest using rev_ind; [done |].
  rewrite app_assoc, last_snoc; by rewrite last_snoc in Hlast.
Qed.

Lemma Motorcycle_init_passes
    (current_year : Z) (uuid4 brand model : string) (year : Z) (fuel_type : string)
    (engine : Engine.t) (has_sidecar : bool) :
  brand <> "" -> model <> "" -> 1900 <= year <= current_year ->
  fuel_type ∈ Vehicle.valid ->
  Motorcycle.__init__ current_year uuid4 brand model year fuel_type engine has_sidecar
  = Return (Object (Vehicle.new brand model year fuel_type uuid4) vehicleMixin.__init__
              (Motorcycle.new engine has_sidecar true)).
Proof. intros; unfold Motorcycle.__init__; by rewrite Vehicle_init_passes. Qed.

Lemma Bus_init_passes
    (current_year : Z) (uuid4 brand model : string) (year : Z) (fuel_type color : string)
    (capacity : Z) (engine : Engine.t) :
  brand <> "" -> model <> "" -> 1900 <= year <= current_year ->
  fuel_type ∈ Vehicle.valid ->
  Bus.__init__ current_year uuid4 brand model year fuel_type color capacity engine
  = Return (Object (Vehicle.new brand model year fuel_type uuid4) vehicleMixin.__init__
              (Bus.new color capacity engine [])).
Proof. intros; unfold Bus.__init__; by rewrite Vehicle_init_passes. Qed.

Lemma Car_init_passes (cls : Classes.name)
    (current_year : Z) (uuid4 brand model : string) (year : Z) (fuel_type : string)
    (engine : Engine.t) (color : string) (num_doors : Z) (license_plate : string)
    (ns : Classes.attributes) :
  brand <> "" -> model <> "" -> 1900 <= year <= current_year ->
  fuel_type ∈ Vehicle.valid ->
  Car.__init__ cls
    (Car.Args current_year uuid4 brand model year fuel_type engine color num_doors
       license_plate) ns
  = Run (Return (Object (Vehicle.new brand model year fuel_type uuid4)
                   vehicleMixin.__init__ (Car.new engine color num_doors license_plate)))
        (Classes.setattr cls (Classes.getattr cls ns + 1) ns) [].
Proof.
  intros; unfold Car.__init__; run_method; by rewrite Vehicle_init_passes.
Qed.

Lemma SportsCar_init_passes
    (current_year : Z) (uuid4 brand model : string) (year : Z) (fuel_type : string)
    (engine : Engine.t) (color : string) (num_doors : Z) (license_plate : string)
    (ns : Classes.attributes) :
  brand <> "" -> model <> "" -> 1900 <= year <= current_year ->
  fuel_type ∈ Vehicle.valid ->
  SportsCar.__init__
    (Car.Args current_year uuid4 brand model year fuel_type engine color num_doors
       license_plate) ns
  = Run (Return (Object (Vehicle.new brand model year fuel_type uuid4)
                   vehicleMixin.__init__
                   (SportsCar.new (Car.new engine color num_doors license_plate)
                      false 1 None)))
        (Classes.setattr Classes.SportsCar
           (Classes.getattr Classes.SportsCar ns + 1) ns) [].
Proof.
  intros; unfold SportsCar.__init__, Py.bind.
  rewrite Car_init_passes by done; reflexivity.
Qed.

Lemma main_of_body `{Interpreter} (env : Main.environment) (ns : Classes.attributes) :
  result (Main.body env ns) = Return tt ->
  Main.main env ns = Main.body env ns.
Proof. unfold Main.main; by intros ->. Qed.

(** Evaluates a statement that reads nothing of the years. *)
Ltac evaluate :=
  match goal with
  | |- ?run = _ =>
      let v := eval vm_compute in run in
      transitivity v; [vm_compute; reflexivity | reflexivity]
  end.

(** Side conditions of a constructor call in [main]. *)
Ltac checks_pass Hyears :=
  first [ discriminate
        | compute_done
        | match goal with
          | |- _ <= _ <= Main.now_year ?env ?k => specialize (Hyears k); lia
          end ].

(** One statement of [main] that returns. *)
Ltac statement Hyears :=
  eapply bind_keeps_ending;
  [ first [ rewrite Car_init_passes by checks_pass Hyears; reflexivity
          | rewrite SportsCar_init_passes by checks_pass Hyears; reflexivity
          | unfold Py.lift; rewrite Motorcycle_init_passes by checks_pass Hyears;
            reflexivity
          | unfold Py.lift; rewrite Bus_init_passes by checks_pass Hyears; reflexivity
          | evaluate ]
  | vm_compute; reflexivity
  | cbv beta ].

(** When every construction of the run reads a current year of 2025 or
    later, [main] runs to its end without an exception: no line reports an
    error and the last line printed is "Total models produced: 2", although
    the run built five cars, three of them sports cars, whose increments
    went to [SportsCar.model_produced], left at 5. *)
Theorem main_reports_two_cars `{Interpreter} (env : Main.environment) :
  (forall k, 2025 <= Main.now_year env k) ->
  result (Main.main env Classes.loaded) = Return tt
  /\ final (Main.main env Classes.loaded) = Classes.new 2 (Some 5)
  /\ last (stdout (Main.main env Classes.loaded)) = Some "Total models produced: 2"
  /\ forallb (fun line => negb (Main.is_error line)) (stdout (Main.main env Classes.loaded))
     = true.
Proof.
  intros Hyears.
  assert (Hbody :
            result (Main.body env Classes.loaded) = Return tt
            /\ final (Main.body env Classes.loaded) = Classes.new 2 (Some 5)
            /\ last (stdout (Main.body env Classes.loaded))
               = Some "Total models produced: 2"
            /\ forallb (fun line => negb (Main.is_error line))
                 (stdout (Main.body env Classes.loaded)) = true).
  { unfold Main.body.
    repeat statement Hyears.
    vm_compute; repeat split. }
  rewrite main_of_body by apply Hbody; exact Hbody.
Qed.

Lemma main_reports_two_cars_witness :
  (forall k, 2025 <= Main.now_year (Main.Environment (fun _ => 2026) (fun _ => "vin")) k)
  /\ forall I : Interpreter,
      last (stdout (Main.main (Main.Environment (fun _ => 2026) (fun _ => "vin"))
                      Classes.loaded))
      = Some "Total models produced: 2".
Proof.
  assert (Hyears : forall k,
             2025 <= Main.now_year (Main.Environment (fun _ => 2026) (fun _ => "vin")) k)
    by (intros k; simpl; lia).
  split; [exact Hyears |].
  intros I.
  exact (proj1 (proj2 (proj2 (main_reports_two_cars _ Hyears)))).
Defined.

Lemma Motorcycle_init_year_fails
    (current_year : Z) (uuid4 brand model : string) (year : Z) (fuel_type : string)
    (engine : Engine.t) (has_sidecar : bool) :
  brand <> "" -> model <> "" -> ~ (1900 <= year <= current_year) ->
  Motorcycle.__init__ current_year uuid4 brand model year fuel_type engine has_sidecar
  = Raise (ValueError "Invalid year.").
Proof.
  intros Hbrand Hmodel Hyear.
  destruct (Vehicle_init_cases current_year uuid4 brand model year fuel_type)
    as (_ & _ & Hfails & _).
  apply (constructors_raise_with_Vehicle current_year uuid4 brand model year fuel_type).
  by apply Hfails.
Qed.

(** With a clock that reads a year before 2025, [main] does not reach its
    total: the construction of the first vehicle dated after the current
    year raises, the handler prints "Value error: Invalid year." as the
    last line, no line reports a total, and [main] itself returns. *)
Theorem main_stops_at_a_future_year `{Interpreter}
    (current_year : Z) (uuids : nat -> string) :
  current_year < 2025 ->
  result (Main.main (Main.Environment (fun _ => current_year) uuids) Classes.loaded)
  = Return tt
  /\ last (stdout (Main.main (Main.Environment (fun _ => current_year) uuids)
                     Classes.loaded))
     = Some "❌ Value error: Invalid year."
  /\ forallb (fun line => negb (Main.is_total line))
       (stdout (Main.main (Main.Environment (fun _ => current_year) uuids)
                  Classes.loaded))
     = true.
Proof.
  intros Hyear.
  assert (Hcases : current_year <= 2022 \/ current_year = 2023 \/ current_year = 2024)
    by lia.
  destruct Hcases as [Hearly | [-> | ->]].
  - unfold Main.main, Main.body.
    rewrite (bind_returns _ _ _ Classes.loaded (Engine.new 120 "4-stroke") [])
      by reflexivity.
    cbv beta.
    rewrite (bind_raises _ _ _ Classes.loaded (ValueError "Invalid year.") []);
      [by vm_compute |].
    unfold Py.lift; simpl Main.now_year.
    rewrite Motorcycle_init_year_fails; [reflexivity | discriminate | discriminate | lia].
  - by vm_compute.
  - by vm_compute.
Qed.

Lemma main_stops_at_a_future_year_witness :
  2024 < 2025
  /\ forall I : Interpreter,
      last (stdout (Main.main (Main.Environment (fun _ => 2024) (fun _ => "vin"))
                      Classes.loaded))
      = Some "❌ Value error: Invalid year.".
Proof.
  assert (Hyear : 2024 < 2025) by lia.
  split; [exact Hyear |].
  intros I.
  exact (proj1 (proj2 (main_stops_at_a_future_year 2024 (fun _ => "vin") Hyear))).
Defined.
